(** * TransitFlow crowd predictor: model of the prediction pipeline

    A shallow embedding of [app/ml_model.py], [app/cache.py] and the
    prediction, observation and training handlers of [app/api.py], with
    the properties of the specification proved (or refuted) on it.

    Python exceptions are values of type [exn]; a computation is a
    function from the process state to an outcome and a new state, so a
    mutation made before a [raise] stays visible to the caller, as in
    Python. *)

From Stdlib Require Import ZArith QArith String Ascii List Lia Bool.
From stdpp Require Import base option list strings gmap.

Local Open Scope string_scope.
Local Open Scope list_scope.
Local Open Scope Z_scope.

(** ** Exceptions and results *)

Module Py.

(** The [detail] of an [HTTPException]: a literal, or the f-string
    [f"{prefix}{str(e)}"] kept symbolic in the exception it formats. *)
Inductive exn : Type :=
| ValueError (msg : string)
| KeyError (key : string)
| TypeError (msg : string)
| ValidationError (msg : string)
| NotFittedError
| IntegrityError
| ConnectionError
| JSONDecodeError
| FileNotFoundError
| HTTPException (status_code : Z) (detail : detail)
with detail : Type :=
| Literal (s : string)
| Formatted (prefix : string) (e : exn).

Inductive result (A : Type) : Type :=
| Ok (a : A)
| Raise (e : exn).
Arguments Ok {A} a.
Arguments Raise {A} e.

(** [isinstance(e, ValueError)]: pydantic's [ValidationError] and
    [json.JSONDecodeError] are subclasses of [ValueError]. *)
Definition is_ValueError (e : exn) : bool :=
  match e with
  | ValueError _ | ValidationError _ | JSONDecodeError => true
  | _ => false
  end.

(** State and exception monad: [M S A] is a Python callable run in
    state [S]. *)
Definition M (S A : Type) : Type := S -> result A * S.

Definition ret {S A} (a : A) : M S A := fun s => (Ok a, s).
Definition raise {S A} (e : exn) : M S A := fun s => (Raise e, s).
Definition bind {S A B} (m : M S A) (k : A -> M S B) : M S B :=
  fun s => match m s with
           | (Ok a, s') => k a s'
           | (Raise e, s') => (Raise e, s')
           end.
Definition gets {S A} (f : S -> A) : M S A := fun s => (Ok (f s), s).
Definition modify {S} (f : S -> S) : M S unit := fun s => (Ok tt, f s).

(** [lift r]: a pure step that may raise. *)
Definition lift {S A} (r : result A) : M S A := fun s => (r, s).

(** [try: m except Exception as e: h e] *)
Definition try_except {S A} (m : M S A) (h : exn -> M S A) : M S A :=
  fun s => match m s with
           | (Ok a, s') => (Ok a, s')
           | (Raise e, s') => h e s'
           end.

(** Bind on plain results, for the pure library models. *)
Definition rbind {A B} (r : result A) (k : A -> result B) : result B :=
  match r with Ok a => k a | Raise e => Raise e end.

End Py.
Import Py.

#[global] Instance M_ret {S} : MRet (M S) := fun A a => ret a.
#[global] Instance M_bind {S} : MBind (M S) := fun A B k m => bind m k.
#[global] Instance result_ret : MRet result := fun A a => Ok a.
#[global] Instance result_bind : MBind result := fun A B k r => rbind r k.

(** ** Calendar values

    A naive timestamp, as [datetime.datetime] and pandas [Timestamp]
    hold it (no time zone). *)

Record datetime : Type := mkDatetime {
  year : Z; month : Z; day : Z; hour : Z; minute : Z; second : Z }.

(** Days since 1970-01-01 in the proleptic Gregorian calendar. *)
Definition days_from_civil (y m d : Z) : Z :=
  let y' := if m <=? 2 then y - 1 else y in
  let era := y' / 400 in
  let yoe := y' - era * 400 in
  let mp := (m + 9) mod 12 in
  let doy := (153 * mp + 2) / 5 + d - 1 in
  let doe := yoe * 365 + yoe / 4 - yoe / 100 + doy in
  era * 146097 + doe - 719468.

(** [datetime.weekday()] and pandas [dt.dayofweek]: Monday is 0 and
    Sunday is 6 (1970-01-01 was a Thursday). *)
Definition weekday (t : datetime) : Z :=
  (days_from_civil (year t) (month t) (day t) + 3) mod 7.

(** ** Cells of a table *)

Inductive value : Type :=
| VNull                      (* None, NaN, NaT *)
| VInt (z : Z)
| VFloat (q : Q)
| VStr (s : string)
| VTime (t : datetime).

Definition datetime_eqb (a b : datetime) : bool :=
  (year a =? year b) && (month a =? month b) && (day a =? day b) &&
  (hour a =? hour b) && (minute a =? minute b) && (second a =? second b).

(** Equality of join keys and of labels. Nulls join to nulls, as in a
    pandas merge. *)
Definition value_eqb (a b : value) : bool :=
  match a, b with
  | VNull, VNull => true
  | VInt x, VInt y => x =? y
  | VFloat x, VFloat y => Qeq_bool x y
  | VStr x, VStr y => String.eqb x y
  | VTime x, VTime y => datetime_eqb x y
  | _, _ => false
  end.

#[global] Instance datetime_eq_dec : EqDecision datetime.
Proof. solve_decision. Defined.
#[global] Instance Q_eq_dec : EqDecision Q.
Proof. solve_decision. Defined.
#[global] Instance value_eq_dec : EqDecision value.
Proof. solve_decision. Defined.

Definition of_option_str (o : option string) : value :=
  match o with Some s => VStr s | None => VNull end.
Definition of_option_float (o : option Q) : value :=
  match o with Some q => VFloat q | None => VNull end.

(** ** Tables

    A pandas [DataFrame] as its column labels and its rows, with the
    operations [CrowdPredictor] uses and the [KeyError] each raises on a
    missing column. *)

Module Frame.

Record DataFrame : Type := mkFrame {
  columns : list string;
  rows : list (list value) }.

(** [pd.DataFrame(records)] for a list of dicts that all have the keys
    [keys]; an empty list gives a frame without columns. *)
Definition of_records (keys : list string) (recs : list (list value)) : DataFrame :=
  match recs with
  | [] => mkFrame [] []
  | _ :: _ => mkFrame keys recs
  end.

Fixpoint index_of (c : string) (cols : list string) : option nat :=
  match cols with
  | [] => None
  | x :: cols' => if String.eqb x c then Some O else S <$> index_of c cols'
  end.

Definition cell (i : nat) (r : list value) : value := nth i r VNull.

(** [df[c]] *)
Definition getitem (df : DataFrame) (c : string) : result (list value) :=
  match index_of c (columns df) with
  | Some i => Ok (map (cell i) (rows df))
  | None => Raise (KeyError c)
  end.

(** [df[c] = vals]: overwrite the column, or add it as the last one. *)
Definition setitem (df : DataFrame) (c : string) (vals : list value) : DataFrame :=
  match index_of c (columns df) with
  | Some i => mkFrame (columns df) (zip_with (fun r v => <[i:=v]> r) (rows df) vals)
  | None => mkFrame (columns df ++ [c]) (zip_with (fun r v => r ++ [v]) (rows df) vals)
  end.

(** [df[c] = k] for a scalar [k] *)
Definition setitem_scalar (df : DataFrame) (c : string) (k : value) : DataFrame :=
  setitem df c (repeat k (length (rows df))).

Fixpoint indices_of (names cols : list string) : result (list nat) :=
  match names with
  | [] => Ok []
  | c :: names' =>
      match index_of c cols with
      | Some i => ixs ← indices_of names' cols; Ok (i :: ixs)
      | None => Raise (KeyError c)
      end
  end.

(** [df[names]] for a list of labels *)
Definition getitems (df : DataFrame) (names : list string) : result DataFrame :=
  ixs ← indices_of names (columns df);
  Ok (mkFrame names (map (fun r => map (fun i => cell i r) ixs) (rows df))).

(** [df[names] = table], column by column *)
Fixpoint setitems (df : DataFrame) (names : list string) (k : nat)
    (table : list (list value)) : DataFrame :=
  match names with
  | [] => df
  | c :: names' => setitems (setitem df c (map (cell k) table)) names' (S k) table
  end.

Definition drop_nth {A} (i : nat) (l : list A) : list A := take i l ++ drop (S i) l.

Definition mem (c : string) (l : list string) : bool := existsb (String.eqb c) l.

(** [left.merge(right, on=on, how='left')]: every left row is kept, in
    order, once per matching right row, or once with nulls when none
    matches; a column other than the key present on both sides gets the
    suffix [_x] or [_y]. *)
Definition merge (left right : DataFrame) (on : string) : result DataFrame :=
  match index_of on (columns left), index_of on (columns right) with
  | Some i, Some j =>
      let rcols := drop_nth j (columns right) in
      let lcols := drop_nth i (columns left) in
      let lnames := map (fun c => if negb (String.eqb c on) && mem c rcols
                                  then c +:+ "_x" else c) (columns left) in
      let rnames := map (fun c => if mem c lcols then c +:+ "_y" else c) rcols in
      let nulls := repeat VNull (length rcols) in
      let joined (lr : list value) :=
        match filter (fun rr => value_eqb (cell j rr) (cell i lr) = true) (rows right) with
        | [] => [lr ++ nulls]
        | ms => map (fun rr => lr ++ drop_nth j rr) ms
        end in
      Ok (mkFrame (lnames ++ rnames) (concat (map joined (rows left))))
  | None, _ => Raise (KeyError on)
  | _, None => Raise (KeyError on)
  end.

(** [col.fillna(k)] *)
Definition fillna (k : value) (col : list value) : list value :=
  map (fun v => match v with VNull => k | _ => v end) col.

(** [pd.to_datetime(col)] on a column of timestamps; a null stays null
    (NaT). Other cells do not occur in the tables of this program and
    are reported as an error. *)
Fixpoint to_datetime (col : list value) : result (list value) :=
  match col with
  | [] => Ok []
  | VTime t :: col' => ts ← to_datetime col'; Ok (VTime t :: ts)
  | VNull :: col' => ts ← to_datetime col'; Ok (VNull :: ts)
  | _ :: _ => Raise (TypeError "to_datetime: not a timestamp")
  end.

(** The [.dt] accessors; a null timestamp gives a null. *)
Definition dt_field (f : datetime -> Z) (col : list value) : list value :=
  map (fun v => match v with VTime t => VInt (f t) | _ => VNull end) col.

(** [col.isin([5, 6]).astype(int)] *)
Definition isin_5_6 (col : list value) : list value :=
  map (fun v => match v with
                | VInt d => VInt (if (d =? 5) || (d =? 6) then 1 else 0)
                | _ => VInt 0
                end) col.

End Frame.
Import Frame.

(** ** Library code

    [LabelEncoder] is modelled in full. The numeric scaler, the random
    forest, the shuffling inside [train_test_split] and the parsing of
    [strptime] are library code outside the repository: they are the
    fields of the class [Libs]. *)

Module Sklearn.

(** The order [np.unique] sorts by: defined between two strings or two
    integers, a [TypeError] otherwise. *)
Definition value_compare (a b : value) : option comparison :=
  match a, b with
  | VStr x, VStr y => Some (String.compare x y)
  | VInt x, VInt y => Some (x ?= y)
  | _, _ => None
  end.

Fixpoint insert_unique (v : value) (l : list value) : result (list value) :=
  match l with
  | [] => Ok [v]
  | x :: l' =>
      match value_compare v x with
      | Some Lt => Ok (v :: x :: l')
      | Some Eq => Ok (x :: l')
      | Some Gt => l'' ← insert_unique v l'; Ok (x :: l'')
      | None => Raise (TypeError "'<' not supported between instances")
      end
  end.

(** [np.unique(col)]: the distinct cells, sorted. *)
Fixpoint unique (col : list value) : result (list value) :=
  match col with
  | [] => Ok []
  | v :: col' => u ← unique col'; insert_unique v u
  end.

(** A [LabelEncoder]; [classes_] is absent until [fit] has run. *)
Record LabelEncoder : Type := mkLabelEncoder { classes_ : option (list value) }.

Fixpoint class_index (v : value) (classes : list value) : option Z :=
  match classes with
  | [] => None
  | c :: classes' =>
      if value_eqb c v then Some 0 else Z.succ <$> class_index v classes'
  end.

Fixpoint encode (classes : list value) (col : list value) : result (list value) :=
  match col with
  | [] => Ok []
  | v :: col' =>
      match class_index v classes with
      | Some k => ks ← encode classes col'; Ok (VInt k :: ks)
      | None => Raise (ValueError "y contains previously unseen labels")
      end
  end.

(** [LabelEncoder.transform] *)
Definition le_transform (enc : LabelEncoder) (col : list value) : result (list value) :=
  match classes_ enc with
  | Some classes => encode classes col
  | None => Raise NotFittedError
  end.

(** [LabelEncoder.fit_transform]: the fitted encoder and the codes. *)
Definition le_fit_transform (col : list value) : result (LabelEncoder * list value) :=
  classes ← unique col;
  codes ← encode classes col;
  Ok (mkLabelEncoder (Some classes), codes).

(** Number of rows of [y] carrying the label [v]. *)
Definition class_count (v : value) (y : list value) : nat :=
  length (filter (fun x => value_eqb x v = true) y).

(** Some label of [y] has fewer than two rows. *)
Definition has_small_class (y : list value) : bool :=
  existsb (fun v => Nat.ltb (class_count v y) 2) y.

Class Libs : Type := {
  Scaler : Type;      (* a fitted StandardScaler: mean_ and scale_ *)
  Forest : Type;      (* a fitted RandomForestClassifier *)
  Report : Type;      (* classification_report(..., output_dict=True) *)
  (** [StandardScaler.fit] on a numeric table *)
  scaler_fit : list (list value) -> result Scaler;
  (** [StandardScaler.transform], row by row *)
  scaler_transform : Scaler -> list value -> list value;
  (** [RandomForestClassifier(n_estimators=100, random_state=42).fit] *)
  forest_fit : list (list value) -> list value -> result Forest;
  forest_predict : Forest -> list value -> value;
  forest_predict_proba : Forest -> list value -> list Q;
  (** the row numbers [train_test_split(test_size=0.2, random_state=42,
      stratify=y)] puts in the training and in the evaluation part *)
  stratified_shuffle : list value -> result (list nat * list nat);
  classification_report : list value -> list value -> Report;
  (** the timestamp [datetime.strptime(s, "%Y-%m-%d %H:%M:%S")] reads,
      if [s] has that format *)
  parse_datetime : string -> option datetime
}.

Section WithLibs.
Context `{Libs}.

Definition take_rows {A} (ixs : list nat) (l : list A) : list A :=
  omap (fun i => l !! i) ixs.

(** [train_test_split(X, y, test_size=0.2, random_state=42, stratify=y)]:
    with two rows or more, a label that has a single row is refused. *)
Definition train_test_split (X : list (list value)) (y : list value)
    : result (list (list value) * list (list value) * list value * list value) :=
  if Nat.leb 2 (length y) && has_small_class y
  then Raise (ValueError "The least populated class in y has only 1 member, which is too few. The minimum number of groups for any class cannot be less than 2.")
  else
    '(tr, te) ← stratified_shuffle y;
    Ok (take_rows tr X, take_rows te X, take_rows tr y, take_rows te y).

(** [datetime.strptime(s, "%Y-%m-%d %H:%M:%S")] *)
Definition strptime (s : string) : result datetime :=
  match parse_datetime s with
  | Some dt => Ok dt
  | None => Raise (ValueError "time data does not match format '%Y-%m-%d %H:%M:%S'")
  end.

(** [accuracy_score(y_true, y_pred)] *)
Definition accuracy_score (y_true y_pred : list value) : Q :=
  let hits := filter (fun p => value_eqb (fst p) (snd p) = true) (zip y_true y_pred) in
  Qmake (Z.of_nat (length hits)) (Pos.of_nat (length y_true)).

End WithLibs.

End Sklearn.
Import Sklearn.

(** ** Stored rows ([app/models.py]) and request schemas ([app/schemas.py])

    Only the columns the modelled code reads are kept. *)

Module Route.
Record t : Type := mk { id : string; long_name : string; route_type : Z }.
End Route.

Module Stop.
Record t : Type := mk {
  id : string; name : string; latitude : Q; longitude : Q;
  zone_id : option string }.
End Stop.

Module Trip.
Record t : Type := mk { id : string; route_id : string }.
End Trip.

(** [boarding_count] is an [int] in [schemas.ObservationBase] (default
    0) and every writer of the repository stores one. *)
Module Observation.
Record t : Type := mk {
  id : Z; trip_id : string; stop_id : string; observation_time : datetime;
  boarding_count : Z; alighting_count : Z; crowd_level : option string;
  weather_condition : option string; temperature : option Q;
  notes : option string }.
End Observation.

Module PredictionRequest.
Record t : Type := mk {
  trip_id : string; stop_id : string; departure_time : string; date : string }.
End PredictionRequest.

Module PredictionResponse.
Record t : Type := mk {
  trip_id : string; stop_id : string; departure_time : string; date : string;
  predicted_crowd_level : string; confidence : Q;
  historical_average : option Z; features_used : list string }.
End PredictionResponse.

Record Database : Type := mkDatabase {
  routes : list Route.t;
  stops : list Stop.t;
  trips : list Trip.t;
  observations : list Observation.t }.

(** [db.query(T).filter(T.id == k).first()] *)
Definition first_stop (k : string) (d : Database) : option Stop.t :=
  find (fun s => String.eqb (Stop.id s) k) (stops d).
Definition first_trip (k : string) (d : Database) : option Trip.t :=
  find (fun t => String.eqb (Trip.id t) k) (trips d).
Definition first_route (k : string) (d : Database) : option Route.t :=
  find (fun r => String.eqb (Route.id r) k) (routes d).

(** ** The key-value store behind the cache

    A Redis server as the map of its keys to a payload and an expiry
    instant, its clock, and a schedule of connection faults: each command
    consumes one flag of [faults], and fails without effect when the flag
    is [true]. An empty schedule is a healthy connection. *)

Module Redis.

(** What a key holds: the JSON text of a prediction, or bytes that are no
    JSON at all. *)
Inductive payload : Type :=
| Encoded (d : PredictionResponse.t)
| Junk (raw : string).

Record t : Type := mk {
  store : gmap string (payload * Z);
  now : Z;
  faults : list bool }.

Definition set_store (m : gmap string (payload * Z)) (r : t) : t :=
  mk m (now r) (faults r).
Definition set_faults (fs : list bool) (r : t) : t :=
  mk (store r) (now r) fs.

Definition eqb_ascii (a b : ascii) : bool := Ascii.eqb a b.

(** One bracket class of a glob pattern, read up to its closing bracket:
    whether [c] is in it, and the pattern after it. *)
Fixpoint glob_class (p : string) (c : ascii) (acc : bool) : bool * string :=
  match p with
  | EmptyString => (acc, EmptyString)
  | String "]" p' => (acc, p')
  | String "\" (String x p') => glob_class p' c (acc || eqb_ascii x c)
  | String a (String "-" (String b p')) =>
      let lo := N.min (N_of_ascii a) (N_of_ascii b) in
      let hi := N.max (N_of_ascii a) (N_of_ascii b) in
      glob_class p' c (acc || (N.leb lo (N_of_ascii c) && N.leb (N_of_ascii c) hi))
  | String x p' => glob_class p' c (acc || eqb_ascii x c)
  end.

(** Glob matching of [KEYS pattern]: [*] any run of characters, [?] one
    character, a bracket class (negated by a leading caret), a backslash
    escaping the next character, anything else itself. *)
Fixpoint glob (fuel : nat) (p s : string) : bool :=
  match fuel with
  | O => false
  | S fuel' =>
      match p with
      | EmptyString => match s with EmptyString => true | _ => false end
      | String "*" p' =>
          glob fuel' p' s ||
          match s with
          | EmptyString => false
          | String _ s' => glob fuel' p s'
          end
      | String "?" p' =>
          match s with
          | EmptyString => false
          | String _ s' => glob fuel' p' s'
          end
      | String "[" p' =>
          match s with
          | EmptyString => false
          | String c s' =>
              let '(neg, body) := match p' with
                                  | String "^" q => (true, q)
                                  | _ => (false, p')
                                  end in
              let '(hit, rest) := glob_class body c false in
              if xorb hit neg then glob fuel' rest s' else false
          end
      | String "\" (String x p') =>
          match s with
          | EmptyString => false
          | String c s' => if eqb_ascii x c then glob fuel' p' s' else false
          end
      | String x p' =>
          match s with
          | EmptyString => false
          | String c s' => if eqb_ascii x c then glob fuel' p' s' else false
          end
      end
  end.

(** No character of [s] is special in a glob pattern. *)
Fixpoint no_meta (s : string) : bool :=
  match s with
  | EmptyString => true
  | String c s' =>
      negb (eqb_ascii c "*" || eqb_ascii c "?" || eqb_ascii c "[" || eqb_ascii c "\")
      && no_meta s'
  end.

Definition matches (pattern key : string) : bool :=
  glob (S (String.length pattern + String.length key)) pattern key.

(** The payload of a key that exists and has not expired. *)
Definition live (r : t) (k : string) : option payload :=
  match store r !! k with
  | Some (p, expiry) => if now r <? expiry then Some p else None
  | None => None
  end.

(** [GET key] *)
Definition GET (k : string) (r : t) : option payload * t := (live r k, r).

(** [SETEX key ttl payload] *)
Definition SETEX (k : string) (ttl : Z) (p : payload) (r : t) : unit * t :=
  (tt, set_store (<[k := (p, now r + ttl)]> (store r)) r).

(** [KEYS pattern] *)
Definition KEYS (pattern : string) (r : t) : list string * t :=
  (filter (fun k => matches pattern k = true /\ is_Some (live r k))
          (map_to_list (store r)).*1, r).

(** [DEL key ...] *)
Definition DEL (ks : list string) (r : t) : unit * t :=
  (tt, set_store (foldr delete (store r) ks) r).

End Redis.

(** ** Process state *)

Section Program.
Context `{Libs}.

(** [CrowdPredictor]: the classifier, the encoder and the scaler are
    objects fitted in place; [None] is one constructed and not fitted. *)
Record CrowdPredictor : Type := mkCrowdPredictor {
  model : option Forest;
  label_encoder : LabelEncoder;
  scaler : option Scaler;
  feature_columns : list string;
  is_trained : bool }.

(** NumPy's global random generator: the outcomes it is going to yield
    and how many it has yielded. *)
Record Rng : Type := mkRng { draws : nat -> bool; cursor : nat }.

(** The module-level objects: the database behind [get_db], the Redis
    server behind [cache_manager], [crowd_predictor], NumPy's generator
    and the file at [settings.MODEL_PATH]. *)
Record World : Type := mkWorld {
  db : Database;
  redis : Redis.t;
  crowd_predictor : CrowdPredictor;
  np_random : Rng;
  model_file : option CrowdPredictor }.

Definition set_db (d : Database) (w : World) : World :=
  mkWorld d (redis w) (crowd_predictor w) (np_random w) (model_file w).
Definition set_redis (r : Redis.t) (w : World) : World :=
  mkWorld (db w) r (crowd_predictor w) (np_random w) (model_file w).
Definition set_crowd_predictor (p : CrowdPredictor) (w : World) : World :=
  mkWorld (db w) (redis w) p (np_random w) (model_file w).
Definition set_np_random (g : Rng) (w : World) : World :=
  mkWorld (db w) (redis w) (crowd_predictor w) g (model_file w).
Definition set_model_file (f : option CrowdPredictor) (w : World) : World :=
  mkWorld (db w) (redis w) (crowd_predictor w) (np_random w) f.

Definition set_model (f : option Forest) (p : CrowdPredictor) : CrowdPredictor :=
  mkCrowdPredictor f (label_encoder p) (scaler p) (feature_columns p) (is_trained p).
Definition set_label_encoder (e : LabelEncoder) (p : CrowdPredictor) : CrowdPredictor :=
  mkCrowdPredictor (model p) e (scaler p) (feature_columns p) (is_trained p).
Definition set_scaler (s : option Scaler) (p : CrowdPredictor) : CrowdPredictor :=
  mkCrowdPredictor (model p) (label_encoder p) s (feature_columns p) (is_trained p).
Definition set_is_trained (b : bool) (p : CrowdPredictor) : CrowdPredictor :=
  mkCrowdPredictor (model p) (label_encoder p) (scaler p) (feature_columns p) b.

(** [self.field = v] on the global predictor *)
Definition update_self (f : CrowdPredictor -> CrowdPredictor) : M World unit :=
  modify (fun w => set_crowd_predictor (f (crowd_predictor w)) w).

(** ** [app/ml_model.py] *)

(** [CrowdPredictor.__init__] *)
Definition init_feature_columns : list string :=
  ["hour"; "day_of_week"; "month"; "is_weekend"; "is_holiday";
   "stop_sequence"; "has_shelter"; "has_washroom"; "has_bike_rack";
   "has_bench"; "zone_id"; "route_type"].

Definition CrowdPredictor_init : CrowdPredictor :=
  mkCrowdPredictor None (mkLabelEncoder None) None init_feature_columns false.

Definition numerical_cols : list string :=
  ["hour"; "day_of_week"; "month"; "stop_sequence"; "route_type"].

Definition amenity_cols : list string :=
  ["has_shelter"; "has_washroom"; "has_bike_rack"; "has_bench"].

(** [np.random.choice([0, 1], size=size, p=...)]: the next [size]
    outcomes of the generator. Both outcomes have a positive probability
    under each of the four priors, so the prior does not restrict which
    outcomes can occur and is not an argument. *)
Definition np_random_choice (size : nat) : M World (list value) :=
  fun w =>
    let g := np_random w in
    (Ok (map (fun k => VInt (if draws g (cursor g + k)%nat then 1 else 0)) (seq 0 size)),
     set_np_random (mkRng (draws g) (cursor g + size)%nat) w).

(** [CrowdPredictor._get_amenities_features] *)
Definition _get_amenities_features (stops_df : DataFrame) : M World DataFrame :=
  amenities_df ← lift (getitems stops_df ["stop_id"]);
  let n := length (rows amenities_df) in
  has_shelter ← np_random_choice n;
  let amenities_df := setitem amenities_df "has_shelter" has_shelter in
  has_washroom ← np_random_choice n;
  let amenities_df := setitem amenities_df "has_washroom" has_washroom in
  has_bike_rack ← np_random_choice n;
  let amenities_df := setitem amenities_df "has_bike_rack" has_bike_rack in
  has_bench ← np_random_choice n;
  let amenities_df := setitem amenities_df "has_bench" has_bench in
  mret amenities_df.

(** [df[col] = df[col].fillna(k)] *)
Definition fill_column (df : DataFrame) (col : string) (k : value) : result DataFrame :=
  c ← getitem df col;
  Ok (setitem df col (fillna k c)).

Fixpoint fill_columns (df : DataFrame) (cols : list string) (k : value)
    : result DataFrame :=
  match cols with
  | [] => Ok df
  | col :: cols' => df' ← fill_column df col k; fill_columns df' cols' k
  end.

(** [CrowdPredictor.prepare_features] *)
Definition prepare_features (observations_df stops_df routes_df : DataFrame)
    : M World DataFrame :=
  df ← lift (merge observations_df stops_df "stop_id");
  df ← lift (merge df routes_df "route_id");
  t ← lift (getitem df "observation_time");
  t ← lift (to_datetime t);
  let df := setitem df "observation_time" t in
  let df := setitem df "hour" (dt_field hour t) in
  let df := setitem df "day_of_week" (dt_field weekday t) in
  let df := setitem df "month" (dt_field month t) in
  dow ← lift (getitem df "day_of_week");
  let df := setitem df "is_weekend" (isin_5_6 dow) in
  let df := setitem_scalar df "is_holiday" (VInt 0) in
  amenities_df ← _get_amenities_features stops_df;
  df ← lift (merge df amenities_df "stop_id");
  df ← lift (fill_columns df amenity_cols (VInt 0));
  df ← lift (fill_column df "zone_id" (VStr "unknown"));
  df ← lift (fill_column df "route_type" (VInt 0));
  mret df.

Record TrainResult : Type := mkTrainResult {
  accuracy : Q;
  report : Report }.

(** The encoding and scaling steps of [CrowdPredictor.train]: the
    encoder and the scaler of [self] are fitted in place, one after the
    other, and the fitted table is returned. *)
Definition fit_features (X : DataFrame) : M World DataFrame :=
  zone ← lift (getitem X "zone_id");
  '(enc, codes) ← lift (le_fit_transform zone);
  update_self (set_label_encoder enc);;
  let X := setitem X "zone_id" codes in
  numeric ← lift (getitems X numerical_cols);
  sc ← lift (scaler_fit (rows numeric));
  update_self (set_scaler (Some sc));;
  mret (setitems X numerical_cols 0 (map (scaler_transform sc) (rows numeric))).

(** [CrowdPredictor.train] *)
Definition train (observations_df stops_df routes_df : DataFrame)
    : M World TrainResult :=
  df ← prepare_features observations_df stops_df routes_df;
  self ← gets crowd_predictor;
  X ← lift (getitems df (feature_columns self));
  y ← lift (getitem df "crowd_level");
  X ← fit_features X;
  '(X_train, X_test, y_train, y_test) ← lift (train_test_split (rows X) y);
  forest ← lift (forest_fit X_train y_train);
  update_self (set_model (Some forest));;
  let y_pred := map (forest_predict forest) X_test in
  let accuracy := accuracy_score y_test y_pred in
  update_self (set_is_trained true);;
  mret (mkTrainResult accuracy (classification_report y_test y_pred)).

(** [max(probabilities)] *)
Definition py_max (l : list Q) : result Q :=
  match l with
  | [] => Raise (ValueError "max() arg is an empty sequence")
  | q :: l' => Ok (fold_left (fun a b => if Qle_bool a b then b else a) l' q)
  end.

(** [stop.zone_id or 'unknown'] *)
Definition or_unknown (zone_id : option string) : string :=
  match zone_id with
  | Some z => if String.eqb z "" then "unknown" else z
  | None => "unknown"
  end.

(** The dict [features] of [CrowdPredictor.predict], in insertion order. *)
Definition predict_features (dt : datetime) (stop : Stop.t) (route : option Route.t)
    : list (string * value) :=
  [("hour", VInt (hour dt));
   ("day_of_week", VInt (weekday dt));
   ("month", VInt (month dt));
   ("is_weekend", VInt (if (weekday dt =? 5) || (weekday dt =? 6) then 1 else 0));
   ("is_holiday", VInt 0);
   ("stop_sequence", VInt 1);
   ("has_shelter", VInt 0);
   ("has_washroom", VInt 0);
   ("has_bike_rack", VInt 0);
   ("has_bench", VInt 0);
   ("zone_id", VStr (or_unknown (Stop.zone_id stop)));
   ("route_type", VInt (match route with Some r => Route.route_type r | None => 0 end))].

(** The fitted table [X] that [CrowdPredictor.predict] hands to the
    classifier. *)
Definition predict_table (self : CrowdPredictor) (features : list (string * value))
    : result DataFrame :=
  let X := of_records (map fst features) [map snd features] in
  zone ← getitem X "zone_id";
  codes ← le_transform (label_encoder self) zone;
  let X := setitem X "zone_id" codes in
  numeric ← getitems X numerical_cols;
  sc ← match scaler self with Some sc => Ok sc | None => Raise NotFittedError end;
  Ok (setitems X numerical_cols 0 (map (scaler_transform sc) (rows numeric))).

(** [CrowdPredictor.predict] *)
Definition predict (trip_id stop_id departure_time date : string)
    : M World (value * Q * list string) :=
  self ← gets crowd_predictor;
  if negb (is_trained self)
  then raise (ValueError "Model must be trained before making predictions")
  else
    dt ← lift (strptime (date +:+ " " +:+ departure_time));
    stop ← gets (fun w => first_stop stop_id (db w));
    trip ← gets (fun w => first_trip trip_id (db w));
    match stop, trip with
    | Some stop, Some trip =>
        route ← gets (fun w => first_route (Trip.route_id trip) (db w));
        X ← lift (predict_table self (predict_features dt stop route));
        forest ← lift (match model self with
                       | Some f => Ok f
                       | None => Raise NotFittedError
                       end);
        let x := hd [] (rows X) in
        let prediction := forest_predict forest x in
        let probabilities := forest_predict_proba forest x in
        confidence ← lift (py_max probabilities);
        mret (prediction, confidence, feature_columns self)
    | _, _ => raise (ValueError "Stop or trip not found")
    end.

(** [CrowdPredictor.save_model]: the pickled dict holds the five
    attributes. *)
Definition save_model : M World unit :=
  self ← gets crowd_predictor;
  modify (set_model_file (Some self)).

(** [CrowdPredictor.load_model] *)
Definition load_model : M World unit :=
  file ← gets model_file;
  match file with
  | Some model_data => modify (set_crowd_predictor model_data)
  | None => raise FileNotFoundError
  end.

(** ** [app/cache.py] *)

(** [settings.CACHE_TTL] *)
Definition CACHE_TTL : Z := 3600.

(** One command sent through [redis_client]. *)
Definition command {A} (op : Redis.t -> A * Redis.t) : M World A :=
  fun w =>
    let r := redis w in
    match Redis.faults r with
    | true :: fs => (Raise ConnectionError, set_redis (Redis.set_faults fs r) w)
    | false :: fs =>
        let '(a, r') := op (Redis.set_faults fs r) in (Ok a, set_redis r' w)
    | [] => let '(a, r') := op r in (Ok a, set_redis r' w)
    end.

Definition cache_key (trip_id stop_id departure_time date : string) : string :=
  "prediction:" +:+ trip_id +:+ ":" +:+ stop_id +:+ ":" +:+ departure_time
    +:+ ":" +:+ date.

(** [json.dumps] and [json.loads] *)
Definition json_dumps (d : PredictionResponse.t) : Redis.payload := Redis.Encoded d.
Definition json_loads (p : Redis.payload) : result PredictionResponse.t :=
  match p with
  | Redis.Encoded d => Ok d
  | Redis.Junk _ => Raise JSONDecodeError
  end.

(** Truth value of the bytes [GET] returned: false when empty. *)
Definition payload_truthy (p : Redis.payload) : bool :=
  match p with
  | Redis.Encoded _ => true
  | Redis.Junk raw => negb (String.eqb raw "")
  end.

(** [CacheManager.get_prediction] *)
Definition get_prediction (trip_id stop_id departure_time date : string)
    : M World (option PredictionResponse.t) :=
  let key := cache_key trip_id stop_id departure_time date in
  try_except
    (cached_data ← command (Redis.GET key);
     match cached_data with
     | Some p =>
         if payload_truthy p
         then d ← lift (json_loads p); mret (Some d)
         else mret None
     | None => mret None
     end)
    (fun e => mret None).

(** [CacheManager.set_prediction] *)
Definition set_prediction (trip_id stop_id departure_time date : string)
    (prediction_data : PredictionResponse.t) : M World bool :=
  let key := cache_key trip_id stop_id departure_time date in
  try_except
    (command (Redis.SETEX key CACHE_TTL (json_dumps prediction_data));;
     mret true)
    (fun e => mret false).

(** Truth value of an [Optional[str]] argument. *)
Definition str_truthy (o : option string) : bool :=
  match o with
  | Some s => negb (String.eqb s "")
  | None => false
  end.

Definition str_of (o : option string) : string := default "" o.

(** The pattern [CacheManager.invalidate_predictions] builds. *)
Definition invalidation_pattern (trip_id stop_id : option string) : string :=
  if str_truthy trip_id && str_truthy stop_id
  then "prediction:" +:+ str_of trip_id +:+ ":" +:+ str_of stop_id +:+ ":*"
  else if str_truthy trip_id
  then "prediction:" +:+ str_of trip_id +:+ ":*"
  else if str_truthy stop_id
  then "prediction:*:" +:+ str_of stop_id +:+ ":*"
  else "prediction:*".

(** [CacheManager.invalidate_predictions] *)
Definition invalidate_predictions (trip_id stop_id : option string) : M World unit :=
  try_except
    (let pattern := invalidation_pattern trip_id stop_id in
     keys ← command (Redis.KEYS pattern);
     match keys with
     | [] => mret tt
     | _ :: _ => command (Redis.DEL keys)
     end)
    (fun e => mret tt).

(** ** [app/api.py] *)

(** [int(x)] for a float: truncation toward zero. *)
Definition py_int (x : Q) : Z := Z.quot (Qnum x) (Zpos (Qden x)).

(** [_get_historical_average] *)
Definition _get_historical_average (trip_id stop_id : string) : M World (option Z) :=
  try_except
    (result ← gets (fun w =>
       map Observation.boarding_count
         (filter (fun o => String.eqb (Observation.trip_id o) trip_id = true /\
                           String.eqb (Observation.stop_id o) stop_id = true)
                 (observations (db w))));
     match result with
     | [] => mret None
     | _ :: _ =>
         let avg_boarding :=
           Qdiv (inject_Z (foldr Z.add 0 result))
                (inject_Z (Z.of_nat (length result))) in
         mret (Some (py_int avg_boarding))
     end)
    (fun e => mret None).

(** [PredictionResponse(...)]: the label has to be a string. *)
Definition make_response (request : PredictionRequest.t) (predicted_level : value)
    (confidence : Q) (historical_avg : option Z) (features_used : list string)
    : result PredictionResponse.t :=
  match predicted_level with
  | VStr level =>
      Ok (PredictionResponse.mk
            (PredictionRequest.trip_id request) (PredictionRequest.stop_id request)
            (PredictionRequest.departure_time request) (PredictionRequest.date request)
            level confidence historical_avg features_used)
  | _ => Raise (ValidationError "predicted_crowd_level")
  end.

(** The [try] block of [predict_crowd] with its two handlers. *)
Definition predict_crowd_compute (request : PredictionRequest.t)
    : M World PredictionResponse.t :=
  try_except
    ('(predicted_level, confidence, features_used) ←
        predict (PredictionRequest.trip_id request) (PredictionRequest.stop_id request)
                (PredictionRequest.departure_time request) (PredictionRequest.date request);
     historical_avg ← _get_historical_average (PredictionRequest.trip_id request)
                                               (PredictionRequest.stop_id request);
     response ← lift (make_response request predicted_level confidence
                                    historical_avg features_used);
     set_prediction (PredictionRequest.trip_id request) (PredictionRequest.stop_id request)
                    (PredictionRequest.departure_time request)
                    (PredictionRequest.date request) response;;
     mret response)
    (fun e =>
       if is_ValueError e
       then raise (HTTPException 400 (Formatted "" e))
       else raise (HTTPException 500 (Literal "Prediction failed"))).

(** [predict_crowd] after a cache miss. *)
Definition predict_crowd_uncached (request : PredictionRequest.t)
    : M World PredictionResponse.t :=
  trip ← gets (fun w => first_trip (PredictionRequest.trip_id request) (db w));
  stop ← gets (fun w => first_stop (PredictionRequest.stop_id request) (db w));
  match trip, stop with
  | None, _ => raise (HTTPException 404 (Literal "Trip not found"))
  | Some _, None => raise (HTTPException 404 (Literal "Stop not found"))
  | Some _, Some _ => predict_crowd_compute request
  end.

(** [predict_crowd] *)
Definition predict_crowd (request : PredictionRequest.t) : M World PredictionResponse.t :=
  cached_result ← get_prediction
    (PredictionRequest.trip_id request) (PredictionRequest.stop_id request)
    (PredictionRequest.departure_time request) (PredictionRequest.date request);
  match cached_result with
  | Some cached => mret cached
  | None => predict_crowd_uncached request
  end.

(** [db.add(db_observation); db.commit()]: the primary key must be new. *)
Definition insert_observation (o : Observation.t) : M World unit :=
  fun w =>
    if existsb (fun x => Observation.id x =? Observation.id o) (observations (db w))
    then (Raise IntegrityError, w)
    else (Ok tt, set_db (mkDatabase (routes (db w)) (stops (db w)) (trips (db w))
                                   (observations (db w) ++ [o])) w).

(** [create_observation] *)
Definition create_observation (observation : Observation.t) : M World Observation.t :=
  trip ← gets (fun w => first_trip (Observation.trip_id observation) (db w));
  stop ← gets (fun w => first_stop (Observation.stop_id observation) (db w));
  match trip, stop with
  | None, _ => raise (HTTPException 404 (Literal "Trip not found"))
  | Some _, None => raise (HTTPException 404 (Literal "Stop not found"))
  | Some _, Some _ =>
      insert_observation observation;;
      invalidate_predictions (Some (Observation.trip_id observation))
                             (Some (Observation.stop_id observation));;
      mret observation
  end.

Definition observations_frame (l : list Observation.t) : DataFrame :=
  of_records
    ["trip_id"; "stop_id"; "observation_time"; "boarding_count"; "alighting_count";
     "crowd_level"; "weather_condition"; "temperature"]
    (map (fun obs =>
            [VStr (Observation.trip_id obs); VStr (Observation.stop_id obs);
             VTime (Observation.observation_time obs);
             VInt (Observation.boarding_count obs);
             VInt (Observation.alighting_count obs);
             of_option_str (Observation.crowd_level obs);
             of_option_str (Observation.weather_condition obs);
             of_option_float (Observation.temperature obs)]) l).

Definition stops_frame (l : list Stop.t) : DataFrame :=
  of_records ["stop_id"; "name"; "latitude"; "longitude"; "zone_id"]
    (map (fun stop =>
            [VStr (Stop.id stop); VStr (Stop.name stop); VFloat (Stop.latitude stop);
             VFloat (Stop.longitude stop); of_option_str (Stop.zone_id stop)]) l).

Definition routes_frame (l : list Route.t) : DataFrame :=
  of_records ["route_id"; "long_name"; "route_type"]
    (map (fun route =>
            [VStr (Route.id route); VStr (Route.long_name route);
             VInt (Route.route_type route)]) l).

Record TrainResponse : Type := mkTrainResponse {
  message : string;
  response_accuracy : Q;
  observations_used : nat;
  model_saved : bool }.

(** [train_model]; creating the directory of [settings.MODEL_PATH] has
    no effect on the modelled state and is left out. *)
Definition train_model : M World TrainResponse :=
  try_except
    (observations ← gets (fun w => observations (db w));
     match observations with
     | [] => raise (HTTPException 400 (Literal "No observations found for training"))
     | _ :: _ =>
         let observations_df := observations_frame observations in
         stops ← gets (fun w => stops (db w));
         let stops_df := stops_frame stops in
         routes ← gets (fun w => routes (db w));
         let routes_df := routes_frame routes in
         results ← train observations_df stops_df routes_df;
         save_model;;
         mret (mkTrainResponse "Model training completed" (accuracy results)
                               (length observations) true)
     end)
    (fun e => raise (HTTPException 500 (Formatted "Training failed: " e))).

(** [startup_event] of [app/main.py] *)
Definition startup_event : M World unit :=
  file ← gets model_file;
  match file with
  | Some _ => try_except load_model (fun e => mret tt)
  | None => mret tt
  end.

(** ** Notions used in the statements *)

(** The error of [predict] in the Untrained state. *)
Definition not_ready : exn :=
  ValueError "Model must be trained before making predictions".

(** The error of a fitted [LabelEncoder] on a label it was not fitted on. *)
Definition unseen_label : exn := ValueError "y contains previously unseen labels".


(** The connection after one command: its fault flag is consumed. *)
Definition after_command (r : Redis.t) : Redis.t :=
  match Redis.faults r with
  | _ :: fs => Redis.set_faults fs r
  | [] => r
  end.

(** The next command is going to fail. *)
Definition next_fails (r : Redis.t) : bool :=
  match Redis.faults r with
  | true :: _ => true
  | _ => false
  end.

(** What [get_prediction] makes of the reply to [GET]. *)
Definition decode (reply : option Redis.payload) : option PredictionResponse.t :=
  match reply with
  | Some (Redis.Encoded d) => Some d
  | _ => None
  end.

(** The boarding counts stored for a trip and a stop. *)
Definition matching_counts (trip_id stop_id : string) (d : Database) : list Z :=
  map Observation.boarding_count
    (filter (fun o => String.eqb (Observation.trip_id o) trip_id = true /\
                      String.eqb (Observation.stop_id o) stop_id = true)
            (observations d)).

(** The computation [m] leaves the component [f] of the state as it
    found it, whatever its outcome. *)
Definition keeps {A X} (f : World -> X) (m : M World A) : Prop :=
  forall w, f (snd (m w)) = f w.

(** Time passing on the Redis server between two requests. *)
Definition elapse (seconds : Z) (w : World) : World :=
  set_redis (Redis.mk (Redis.store (redis w)) (Redis.now (redis w) + seconds)
                      (Redis.faults (redis w))) w.

(** The status code the client receives: an [HTTPException] carries its
    own, any other exception leaving a handler is a 500. *)
Definition status_code {A} (r : result A) : Z :=
  match r with
  | Ok _ => 200
  | Raise (HTTPException code _) => code
  | Raise _ => 500
  end.

(** ** Further handlers *)



(** ** Further notions used in the statements *)

(** A new process over the same database, Redis server and model file:
    the module-level [crowd_predictor = CrowdPredictor()] runs again and
    NumPy's generator starts in a state [g] of its own. *)
Definition restart (g : Rng) (w : World) : World :=
  mkWorld (db w) (redis w) CrowdPredictor_init g (model_file w).

(** The string holds no key separator. *)
Fixpoint no_colon (s : string) : bool :=
  match s with
  | EmptyString => true
  | String c s' => negb (Redis.eqb_ascii c ":") && no_colon s'
  end.


(** No two cells of a key column are equal. *)
Fixpoint distinct (l : list value) : bool :=
  match l with
  | [] => true
  | x :: l' => forallb (fun y => negb (value_eqb x y)) l' && distinct l'
  end.

(** An argument of [invalidate_predictions] selects the identifier [x]:
    it is omitted or empty, or it is [x] itself and [x] has no character
    that is special in a pattern. *)
Definition selects (arg : option string) (x : string) : Prop :=
  str_truthy arg = false \/ (arg = Some x /\ Redis.no_meta x = true).



End Program.

(** ** A small instance of the libraries, and sample data

    Used to run the model on concrete inputs: a scaler that leaves every
    row as it is, a classifier that answers the first label it was fitted
    on with probability one, a split that keeps row 0 for evaluation, and
    a parser of zero-padded [YYYY-MM-DD HH:MM:SS]. *)

Module Sample.

Definition digit (c : ascii) : option Z :=
  let n := Z.of_N (N_of_ascii c) in
  if (48 <=? n) && (n <=? 57) then Some (n - 48) else None.

Fixpoint number (acc : Z) (s : string) : option Z :=
  match s with
  | EmptyString => Some acc
  | String c s' => d ← digit c; number (10 * acc + d) s'
  end.

(** The number written in the [len] characters of [s] from [pos]. *)
Definition field (pos len : nat) (s : string) : option Z :=
  number 0 (String.substring pos len s).

Definition in_range (lo hi x : Z) : bool := (lo <=? x) && (x <=? hi).

Definition separators_ok (s : string) : bool :=
  String.eqb (String.substring 4 1 s) "-" && String.eqb (String.substring 7 1 s) "-"
  && String.eqb (String.substring 10 1 s) " " && String.eqb (String.substring 13 1 s) ":"
  && String.eqb (String.substring 16 1 s) ":".

Definition parse (s : string) : option datetime :=
  if Nat.eqb (String.length s) 19 && separators_ok s
  then
    y ← field 0 4 s; m ← field 5 2 s; d ← field 8 2 s;
    h ← field 11 2 s; n ← field 14 2 s; sec ← field 17 2 s;
    if in_range 1 12 m && in_range 1 31 d && in_range 0 23 h
       && in_range 0 59 n && in_range 0 59 sec
    then Some (mkDatetime y m d h n sec)
    else None
  else None.

Definition shuffle (y : list value) : result (list nat * list nat) :=
  Ok (seq 1 (length y - 1), [O]).

Definition fit_first (X : list (list value)) (y : list value) : result value :=
  match y with
  | [] => Raise (ValueError "Found array with 0 sample(s)")
  | v :: _ => Ok v
  end.

Definition libs : Libs := {|
  Scaler := unit;
  Forest := value;
  Report := unit;
  scaler_fit := fun _ => Ok tt;
  scaler_transform := fun _ r => r;
  forest_fit := fit_first;
  forest_predict := fun f _ => f;
  forest_predict_proba := fun _ _ => [1%Q];
  stratified_shuffle := shuffle;
  classification_report := fun _ _ => tt;
  parse_datetime := parse |}.

Definition stop1 : Stop.t := Stop.mk "S1" "Union" (4365 # 100) (-7938 # 100) (Some "Z1").
Definition stop2 : Stop.t := Stop.mk "S2" "Oak" (4370 # 100) (-7940 # 100) None.
Definition trip1 : Trip.t := Trip.mk "T1" "R1".
Definition route1 : Route.t := Route.mk "R1" "Lakeshore" 2.

Definition at_8 (d : Z) : datetime := mkDatetime 2024 1 d 8 0 0.

Definition obs (k : Z) (d : Z) (count : Z) (level : string) : Observation.t :=
  Observation.mk k "T1" "S1" (at_8 d) count 0 (Some level) None None None.

Definition database : Database :=
  mkDatabase [route1] [stop1; stop2] [trip1]
    [obs 1 15 10 "light"; obs 2 16 20 "light"; obs 3 17 30 "packed"].

Definition no_observations : Database := mkDatabase [route1] [stop1; stop2] [trip1] [].

(** An observation table that carries the two columns the feature list
    needs beyond those of [train_model]'s table. *)
Definition training_columns : list string :=
  ["trip_id"; "stop_id"; "route_id"; "stop_sequence"; "observation_time"; "crowd_level"].

Definition training_row (d : Z) (level : string) : list value :=
  [VStr "T1"; VStr "S1"; VStr "R1"; VInt 1; VTime (at_8 d); VStr level].

(** Two rows of each label: the stratified split accepts it. *)
Definition balanced : DataFrame :=
  mkFrame training_columns
    [training_row 15 "light"; training_row 16 "light";
     training_row 20 "packed"; training_row 21 "packed"].


Definition stops_df : DataFrame := stops_frame [stop1].
Definition routes_df : DataFrame := routes_frame [route1].

Definition request : PredictionRequest.t :=
  PredictionRequest.mk "T1" "S1" "08:00:00" "2024-01-15".

Definition cached : PredictionResponse.t :=
  PredictionResponse.mk "T1" "S1" "08:00:00" "2024-01-15" "light" (9 # 10) (Some 20)
    init_feature_columns.

Definition key : string := cache_key "T1" "S1" "08:00:00" "2024-01-15".

(** A healthy server at instant 0, empty or holding [cached] until 100. *)
Definition redis_empty : Redis.t := Redis.mk ∅ 0 [].
Definition redis_cached (faults : list bool) : Redis.t :=
  Redis.mk {[ key := (Redis.Encoded cached, 100) ]} 0 faults.

(** The generator yields 1, 1 and zeros from then on. *)
Definition rng : Rng := mkRng (fun k => Nat.ltb k 2) 0.

Definition world (r : Redis.t) (p : @CrowdPredictor libs) : @World libs :=
  mkWorld database r p rng None.

(** A process just started on a database without observations. *)
Definition fresh_world : @World libs :=
  mkWorld no_observations redis_empty CrowdPredictor_init rng None.


(** A bundle left by an earlier training on zone ["Z9"]. *)
Definition trained : @CrowdPredictor libs :=
  @mkCrowdPredictor libs (Some (VStr "light")) (mkLabelEncoder (Some [VStr "Z9"]))
                   (Some tt) init_feature_columns true.

(** The same bundle with ["Z1"] known to the encoder. *)
Definition trained_Z1 : @CrowdPredictor libs :=
  @mkCrowdPredictor libs (Some (VStr "light")) (mkLabelEncoder (Some [VStr "Z1"]))
                   (Some tt) init_feature_columns true.

(** An observation for a trip the database does not hold. *)
Definition stray_observation : Observation.t :=
  Observation.mk 5 "T9" "S1" (at_8 18) 12 0 (Some "moderate") None None None.

End Sample.

(** * Properties *)

Ltac unfold_monad :=
  unfold mbind, M_bind, mret, M_ret, result_bind, result_ret, bind, rbind, ret,
         raise, gets, modify, lift, try_except, update_self in *.

Section Properties.
Context `{Libs}.

(** ** The training endpoint *)

(** C2 (the code departs from it). [train_model] with no observation in
    storage raises its own 400 inside the [try] block, where the
    catch-all handler turns it into a 500. *)
Theorem train_model_without_observations (w : World) :
  observations (db w) = [] ->
  train_model w =
    (Raise (HTTPException 500
              (Formatted "Training failed: "
                 (HTTPException 400 (Literal "No observations found for training")))),
     w).
Proof.
  intros Hobs. unfold train_model. unfold_monad. rewrite Hobs. reflexivity.
Qed.

(** The tables [train_model] builds lack the [route_id] column that
    [prepare_features] joins on, so the endpoint answers 500 whatever is
    stored. *)
Lemma train_model_status (w : World) : status_code (fst (train_model w)) = 500.
Proof.
  unfold train_model. unfold_monad.
  destruct (observations (db w)) as [| o os]; [reflexivity |].
  destruct (stops (db w)) as [| s ss]; [reflexivity |].
  reflexivity.
Qed.

(** ** Prediction before training *)

Lemma predict_untrained (w : World) (trip_id stop_id departure_time date : string) :
  is_trained (crowd_predictor w) = false ->
  predict trip_id stop_id departure_time date w = (Raise not_ready, w).
Proof.
  intros Hu. unfold predict. unfold_monad. rewrite Hu. reflexivity.
Qed.

Lemma set_redis_same (w : World) : set_redis (redis w) w = w.
Proof. by destruct w. Qed.

Lemma get_prediction_eq (w : World) (t s d e : string) :
  get_prediction t s d e w =
    (Ok (if next_fails (redis w) then None
         else decode (Redis.live (redis w) (cache_key t s d e))),
     set_redis (after_command (redis w)) w).
Proof.
  unfold get_prediction, command, next_fails, after_command. unfold_monad.
  destruct (Redis.faults (redis w)) as [| [] fs]; simpl; [| done |].
  - destruct (Redis.live (redis w) _) as [[d0 | raw] |]; simpl; try done.
    by destruct (String.eqb raw "").
  - change (Redis.live (Redis.set_faults fs (redis w)) (cache_key t s d e))
      with (Redis.live (redis w) (cache_key t s d e)).
    destruct (Redis.live (redis w) _) as [[d0 | raw] |]; simpl; try done.
    by destruct (String.eqb raw "").
Qed.

(** C5. In the Untrained state [predict] raises the not-ready
    [ValueError]; the handler of [predict_crowd] surfaces it as a 400 with
    that message; and the endpoint as a whole never answers 500. *)
Theorem predict_untrained_precondition (w : World) (request : PredictionRequest.t) :
  is_trained (crowd_predictor w) = false ->
  (forall trip_id stop_id departure_time date,
      predict trip_id stop_id departure_time date w = (Raise not_ready, w)) /\
  predict_crowd_compute request w =
    (Raise (HTTPException 400 (Formatted "" not_ready)), w) /\
  status_code (fst (predict_crowd request w)) <> 500.
Proof.
  intros Hu. split; [| split].
  - intros. by apply predict_untrained.
  - unfold predict_crowd_compute. unfold_monad.
    fold (@bind World). unfold try_except.
    rewrite predict_untrained by done. reflexivity.
  - unfold predict_crowd. unfold_monad.
    rewrite get_prediction_eq.
    destruct (if next_fails _ then _ else _) as [c |]; [simpl; lia |].
    unfold predict_crowd_uncached. unfold_monad. simpl.
    destruct (first_trip _ _); [| simpl; lia].
    destruct (first_stop _ _); [| simpl; lia].
    unfold predict_crowd_compute. unfold_monad.
    rewrite predict_untrained by done. simpl. lia.
Qed.

(** ** Historical average *)




(** The example of the specification: counts 10, 20 and 30 average to 20. *)
Example historical_average_sample :
  fst (@_get_historical_average Sample.libs "T1" "S1"
         (Sample.world Sample.redis_empty Sample.trained)) = Ok (Some 20).
Proof. reflexivity. Qed.

(** ** The cache is best effort *)

Lemma set_prediction_eq (w : World) (t s d e : string) (data : PredictionResponse.t) :
  set_prediction t s d e data w =
    (Ok (negb (next_fails (redis w))),
     if next_fails (redis w) then set_redis (after_command (redis w)) w
     else set_redis
            (snd (Redis.SETEX (cache_key t s d e) CACHE_TTL (Redis.Encoded data)
                    (after_command (redis w)))) w).
Proof.
  unfold set_prediction, command, next_fails, after_command. unfold_monad.
  by destruct (Redis.faults (redis w)) as [| [] fs].
Qed.

(** [predict] reads the database and the predictor, and changes nothing. *)
Lemma predict_reads (t s d e : string) (w w' : World) :
  db w' = db w -> crowd_predictor w' = crowd_predictor w ->
  exists r, predict t s d e w = (r, w) /\ predict t s d e w' = (r, w').
Proof.
  intros Hdb Hp. unfold predict. unfold_monad. rewrite Hp.
  destruct (is_trained (crowd_predictor w)); simpl;
    [| eexists; split; reflexivity].
  repeat (rewrite ?Hdb;
          match goal with
          | |- context [match ?x with _ => _ end] => destruct x; simpl
          end);
    eexists; split; reflexivity.
Qed.

Lemma historical_average_reads (t s : string) (w : World) :
  _get_historical_average t s w =
    (Ok (match matching_counts t s (db w) with
         | [] => None
         | c :: cs =>
             Some (py_int (Qdiv (inject_Z (foldr Z.add 0 (c :: cs)))
                                (inject_Z (Z.of_nat (length (c :: cs))))))
         end), w).
Proof.
  unfold _get_historical_average. unfold_monad.
  fold (matching_counts t s (db w)).
  by destruct (matching_counts t s (db w)).
Qed.

(** The answer computed after a miss does not depend on the cache. *)
Lemma uncached_ignores_redis (request : PredictionRequest.t) (w w' : World) :
  db w' = db w -> crowd_predictor w' = crowd_predictor w ->
  fst (predict_crowd_uncached request w') = fst (predict_crowd_uncached request w).
Proof.
  intros Hdb Hp. unfold predict_crowd_uncached. unfold_monad. rewrite Hdb.
  destruct (first_trip _ (db w)); [| done].
  destruct (first_stop _ (db w)); [| done].
  unfold predict_crowd_compute. unfold_monad.
  destruct (predict_reads (PredictionRequest.trip_id request)
              (PredictionRequest.stop_id request)
              (PredictionRequest.departure_time request)
              (PredictionRequest.date request) w w' Hdb Hp) as (r & -> & ->).
  destruct r as [[[level conf] feats] | e]; [| by destruct (is_ValueError e)].
  rewrite !historical_average_reads, Hdb.
  destruct (make_response _ _ _ _ _) as [resp | e];
    [| by destruct (is_ValueError e)].
  by rewrite !set_prediction_eq.
Qed.

(** C8. [get_prediction] and [set_prediction] never raise. A [GET] that
    fails, or a payload that does not deserialize, gives the miss value; a
    [SETEX] that fails reports [False] and leaves the store as it was; and
    when the probe fails [predict_crowd] answers what the miss path
    answers, whatever the state of the cache. *)
Theorem cache_failures_are_swallowed
    (w : World) (t s d e : string) (data : PredictionResponse.t)
    (request : PredictionRequest.t) :
  (exists o w', get_prediction t s d e w = (Ok o, w')) /\
  (next_fails (redis w) = true \/
   (exists raw, Redis.live (redis w) (cache_key t s d e) = Some (Redis.Junk raw)) ->
   fst (get_prediction t s d e w) = Ok None) /\
  (exists b w', set_prediction t s d e data w = (Ok b, w')) /\
  (next_fails (redis w) = true ->
   fst (set_prediction t s d e data w) = Ok false /\
   Redis.store (redis (snd (set_prediction t s d e data w))) = Redis.store (redis w)) /\
  (next_fails (redis w) = true ->
   forall r, fst (predict_crowd request w) =
             fst (predict_crowd_uncached request (set_redis r w))).
Proof.
  split; [| split; [| split; [| split]]].
  - rewrite get_prediction_eq. eauto.
  - rewrite get_prediction_eq. simpl. intros [-> | [raw ->]]; [done |].
    by destruct (next_fails _).
  - rewrite set_prediction_eq. eauto.
  - intros Hf. rewrite set_prediction_eq, Hf. simpl. split; [done |].
    unfold after_command. by destruct (Redis.faults (redis w)).
  - intros Hf r. unfold predict_crowd. unfold_monad.
    rewrite get_prediction_eq, Hf.
    transitivity (fst (predict_crowd_uncached request w));
      [| symmetry]; by apply uncached_ignores_redis.
Qed.

(** ** Training and the cache *)

Section Keeps.
Context {X : Type} (f : World -> X).

Lemma keeps_ret {A} (a : A) : keeps f (mret a).
Proof. done. Qed.

Lemma keeps_raise {A} (e : exn) : keeps f (@raise World A e).
Proof. done. Qed.

Lemma keeps_lift {A} (r : result A) : keeps f (lift r).
Proof. done. Qed.

Lemma keeps_gets {A} (g : World -> A) : keeps f (gets g).
Proof. done. Qed.

Lemma keeps_bind {A B} (m : M World A) (k : A -> M World B) :
  keeps f m -> (forall a, keeps f (k a)) -> keeps f (m ≫= k).
Proof.
  intros Hm Hk w. unfold_monad. specialize (Hm w).
  destruct (m w) as [[a | e] w1]; simpl in *; [| done].
  by rewrite Hk.
Qed.

Lemma keeps_try_except {A} (m : M World A) (h : exn -> M World A) :
  keeps f m -> (forall e, keeps f (h e)) -> keeps f (try_except m h).
Proof.
  intros Hm Hh w. unfold try_except. specialize (Hm w).
  destruct (m w) as [[a | e] w1]; simpl in *; [done |].
  by rewrite Hh.
Qed.

Lemma keeps_update_self (g : CrowdPredictor -> CrowdPredictor) :
  (forall w p, f (set_crowd_predictor p w) = f w) -> keeps f (update_self g).
Proof. intros Hf w. apply Hf. Qed.

Lemma keeps_np_random_choice (n : nat) :
  (forall w g, f (set_np_random g w) = f w) -> keeps f (np_random_choice n).
Proof. intros Hf w. apply Hf. Qed.

End Keeps.

Ltac keeps_tac :=
  repeat first
    [ apply keeps_ret | apply keeps_raise | apply keeps_lift | apply keeps_gets
    | apply keeps_update_self; [intros; reflexivity]
    | apply keeps_np_random_choice; [assumption || (intros; reflexivity)]
    | apply keeps_bind; [| intros]
    | apply keeps_try_except; [| intros]
    | match goal with
      | |- keeps _ (match ?x with _ => _ end) => destruct x
      end ].

Lemma prepare_features_keeps {X} (f : World -> X) o s r :
  (forall w g, f (set_np_random g w) = f w) -> keeps f (prepare_features o s r).
Proof. intros Hf. unfold prepare_features, _get_amenities_features. keeps_tac. Qed.

Lemma train_keeps {X} (f : World -> X) o s r :
  (forall w g, f (set_np_random g w) = f w) ->
  (forall w p, f (set_crowd_predictor p w) = f w) ->
  keeps f (train o s r).
Proof.
  intros Hg Hp. unfold train, fit_features.
  apply keeps_bind; [by apply prepare_features_keeps | intros].
  repeat first
    [ apply keeps_ret | apply keeps_lift | apply keeps_gets
    | apply keeps_update_self; [intros; apply Hp]
    | apply keeps_bind; [| intros]
    | match goal with
      | |- keeps _ (match ?x with _ => _ end) => destruct x
      end ].
Qed.

Lemma train_model_keeps_redis : keeps redis train_model.
Proof.
  unfold train_model. apply keeps_try_except; [| intros; apply keeps_raise].
  apply keeps_bind; [apply keeps_gets | intros obs].
  destruct obs; [apply keeps_raise |].
  apply keeps_bind; [apply keeps_gets | intros].
  apply keeps_bind; [apply keeps_gets | intros].
  apply keeps_bind; [by apply train_keeps | intros].
  unfold save_model. keeps_tac. done.
Qed.

Lemma predict_crowd_hit (w : World) (request : PredictionRequest.t)
    (cached : PredictionResponse.t) :
  next_fails (redis w) = false ->
  Redis.live (redis w)
    (cache_key (PredictionRequest.trip_id request) (PredictionRequest.stop_id request)
               (PredictionRequest.departure_time request)
               (PredictionRequest.date request)) = Some (Redis.Encoded cached) ->
  fst (predict_crowd request w) = Ok cached.
Proof.
  intros Hf Hl. unfold predict_crowd. unfold_monad.
  by rewrite get_prediction_eq, Hf, Hl.
Qed.

(** C9. A training run, at the predictor or at the endpoint and
    whatever its outcome, leaves the Redis server untouched; a prediction
    cached before it is still served, unchanged, to a later request for
    the same trip, stop, time and date, for as long as it has not
    expired. *)
Theorem training_keeps_cached_predictions
    (w : World) (request : PredictionRequest.t) (cached : PredictionResponse.t)
    (expiry seconds : Z) :
  Redis.store (redis w) !!
    cache_key (PredictionRequest.trip_id request) (PredictionRequest.stop_id request)
              (PredictionRequest.departure_time request)
              (PredictionRequest.date request) = Some (Redis.Encoded cached, expiry) ->
  next_fails (redis w) = false ->
  Redis.now (redis w) + seconds < expiry ->
  (forall observations_df stops_df routes_df,
      let w' := snd (train observations_df stops_df routes_df w) in
      redis w' = redis w /\
      fst (predict_crowd request (elapse seconds w')) = Ok cached) /\
  (let w' := snd (train_model w) in
   redis w' = redis w /\
   fst (predict_crowd request (elapse seconds w')) = Ok cached).
Proof.
  intros Hk Hf Ht.
  assert (Hserved : forall w', redis w' = redis w ->
            fst (predict_crowd request (elapse seconds w')) = Ok cached).
  { intros w' Hr. apply predict_crowd_hit.
    - unfold elapse, next_fails in *. simpl. by rewrite Hr.
    - unfold elapse, Redis.live. simpl. rewrite Hr, Hk.
      destruct (Z.ltb_spec (Redis.now (redis w) + seconds) expiry); [done | lia]. }
  split.
  - intros o s r w'.
    assert (Hr : redis w' = redis w) by (by apply (train_keeps redis)).
    auto.
  - intros w'.
    assert (Hr : redis w' = redis w) by apply train_model_keeps_redis.
    auto.
Qed.

(** ** Invalidation on an observation write *)

Lemma string_length_app (a b : string) :
  String.length (a +:+ b) = (String.length a + String.length b)%nat.
Proof. induction a as [| c a IH]; simpl; [done | by rewrite IH]. Qed.

Lemma glob_literal_step (c : ascii) (p s : string) (fuel : nat) :
  Redis.no_meta (String c EmptyString) = true ->
  Redis.glob (S fuel) (String c p) (String c s) = Redis.glob fuel p s.
Proof.
  intros Hc.
  destruct c as [[] [] [] [] [] [] [] []]; try discriminate Hc; reflexivity.
Qed.

Lemma glob_literal (a p s : string) (fuel : nat) :
  Redis.no_meta a = true ->
  Redis.glob (String.length a + fuel) (a +:+ p) (a +:+ s) = Redis.glob fuel p s.
Proof.
  induction a as [| c a IH]; intros Ha; [done |].
  simpl in Ha. apply andb_true_iff in Ha as [Hc Ha].
  change (Redis.glob (S (String.length a + fuel))
            (String c (a +:+ p)) (String c (a +:+ s)) = Redis.glob fuel p s).
  rewrite glob_literal_step; [by apply IH |].
  simpl. by rewrite Hc.
Qed.

Lemma glob_star_all (s : string) (fuel : nat) :
  (String.length s + 2 <= fuel)%nat -> Redis.glob fuel "*" s = true.
Proof.
  revert fuel. induction s as [| c s IH]; intros fuel Hf.
  - destruct fuel as [| [| fuel]]; simpl in *; lia || done.
  - destruct fuel as [| fuel]; simpl in *; [lia |].
    rewrite IH by lia. by rewrite orb_true_r.
Qed.

Lemma glob_star_skip (p s : string) (fuel : nat) :
  Redis.glob fuel p s = true -> Redis.glob (S fuel) (String "*" p) s = true.
Proof. intros Hg. simpl. by rewrite Hg. Qed.

Lemma string_app_assoc (a b c : string) : (a +:+ b) +:+ c = a +:+ (b +:+ c).
Proof.
  induction a as [| x a IH]; [done |].
  change (String x ((a +:+ b) +:+ c) = String x (a +:+ (b +:+ c))). by f_equal.
Qed.

Lemma no_meta_app (a b : string) :
  Redis.no_meta (a +:+ b) = Redis.no_meta a && Redis.no_meta b.
Proof.
  induction a as [| x a IH]; [done |].
  change (Redis.no_meta (String x (a +:+ b)) =
          Redis.no_meta (String x a) && Redis.no_meta b).
  simpl. rewrite IH. by rewrite andb_assoc.
Qed.

(** A pattern made of a literal text and a final star matches every key
    that starts with that text. *)
Lemma matches_prefix_star (a rest : string) :
  Redis.no_meta a = true -> Redis.matches (a +:+ "*") (a +:+ rest) = true.
Proof.
  intros Ha. unfold Redis.matches.
  assert (HF : S (String.length (a +:+ "*") + String.length (a +:+ rest)) =
               (String.length a + (String.length a + String.length rest + 2))%nat).
  { rewrite !string_length_app. change (String.length "*") with 1%nat. lia. }
  rewrite HF, glob_literal by done. apply glob_star_all. lia.
Qed.

Lemma matches_star_inside (a b rest : string) :
  Redis.no_meta a = true -> Redis.no_meta b = true ->
  Redis.matches (a +:+ "*" +:+ b +:+ "*") (a +:+ b +:+ rest) = true.
Proof.
  intros Ha Hb. unfold Redis.matches.
  assert (HF : S (String.length (a +:+ "*" +:+ b +:+ "*")
                  + String.length (a +:+ b +:+ rest)) =
               (String.length a +
                S (String.length b + (String.length a + String.length b
                                      + String.length rest + 2)))%nat).
  { rewrite !string_length_app. change (String.length "*") with 1%nat. lia. }
  rewrite HF, glob_literal by done.
  change ("*" +:+ b +:+ "*") with (String "*" (b +:+ "*")).
  apply glob_star_skip.
  rewrite glob_literal by done. apply glob_star_all. lia.
Qed.

(** The pattern built for a write to trip [T] and stop [S] covers every
    cache key of [T] and [S]. *)
Lemma invalidation_pattern_covers (T S time date : string) :
  Redis.no_meta T = true -> Redis.no_meta S = true ->
  Redis.matches (invalidation_pattern (Some T) (Some S)) (cache_key T S time date) = true.
Proof.
  intros HT HS. unfold invalidation_pattern, cache_key, str_truthy, str_of. simpl default.
  destruct (String.eqb_spec T "") as [-> | HTne];
    destruct (String.eqb_spec S "") as [-> | HSne]; simpl negb; simpl andb; cbv iota.
  - apply (matches_prefix_star "prediction:" (":" +:+ ":" +:+ time +:+ ":" +:+ date)).
    done.
  - change ("prediction:*:" +:+ S +:+ ":*")
      with ("prediction:" +:+ "*" +:+ (":" +:+ S +:+ ":*")).
    replace (":" +:+ S +:+ ":*") with ((":" +:+ S +:+ ":") +:+ "*")
      by (by rewrite !string_app_assoc).
    change ("prediction:" +:+ "" +:+ ":" +:+ S +:+ ":" +:+ time +:+ ":" +:+ date)
      with ("prediction:" +:+ (":" +:+ S +:+ (":" +:+ time +:+ ":" +:+ date))).
    replace (":" +:+ S +:+ (":" +:+ time +:+ ":" +:+ date))
      with ((":" +:+ S +:+ ":") +:+ (time +:+ ":" +:+ date))
      by (by rewrite !string_app_assoc).
    apply matches_star_inside; [done |].
    rewrite !no_meta_app, HS. done.
  - replace ("prediction:" +:+ T +:+ ":*")
      with (("prediction:" +:+ T +:+ ":") +:+ "*")
      by (by rewrite !string_app_assoc).
    replace ("prediction:" +:+ T +:+ ":" +:+ "" +:+ ":" +:+ time +:+ ":" +:+ date)
      with (("prediction:" +:+ T +:+ ":") +:+ (":" +:+ time +:+ ":" +:+ date))
      by (by rewrite !string_app_assoc).
    apply matches_prefix_star. rewrite !no_meta_app, HT. done.
  - replace ("prediction:" +:+ T +:+ ":" +:+ S +:+ ":*")
      with (("prediction:" +:+ T +:+ ":" +:+ S +:+ ":") +:+ "*")
      by (by rewrite !string_app_assoc).
    replace ("prediction:" +:+ T +:+ ":" +:+ S +:+ ":" +:+ time +:+ ":" +:+ date)
      with (("prediction:" +:+ T +:+ ":" +:+ S +:+ ":") +:+ (time +:+ ":" +:+ date))
      by (by rewrite !string_app_assoc).
    apply matches_prefix_star. rewrite !no_meta_app, HT, HS. done.
Qed.

Lemma live_listed (r : Redis.t) (pattern k : string) :
  Redis.matches pattern k = true -> is_Some (Redis.live r k) ->
  k ∈ fst (Redis.KEYS pattern r).
Proof.
  intros Hm Hl. unfold Redis.KEYS. simpl. apply list_elem_of_filter.
  split; [done |].
  unfold Redis.live in Hl.
  destruct (Redis.store r !! k) as [[p e] |] eqn:Hk; [| by destruct Hl].
  apply list_elem_of_fmap. exists (k, (p, e)). split; [done |].
  by apply elem_of_map_to_list.
Qed.

Lemma live_after_DEL (r : Redis.t) (pattern k : string) :
  Redis.matches pattern k = true ->
  Redis.live (snd (Redis.DEL (fst (Redis.KEYS pattern r)) r)) k = None.
Proof.
  intros Hm. set (ks := fst (Redis.KEYS pattern r)).
  unfold Redis.DEL, Redis.live. simpl.
  destruct (decide (k ∈ ks)) as [Hin | Hout].
  - by rewrite lookup_foldr_delete.
  - rewrite lookup_foldr_delete_not_elem_of by done.
    destruct (Redis.live r k) as [p |] eqn:Hl.
    + destruct Hout. apply live_listed; [done | by rewrite Hl].
    + exact Hl.
Qed.

Lemma live_elapse (w : World) (k : string) (seconds : Z) :
  0 <= seconds -> Redis.live (redis w) k = None ->
  Redis.live (redis (elapse seconds w)) k = None.
Proof.
  intros Hs. unfold elapse, Redis.live. simpl.
  destruct (Redis.store (redis w) !! k) as [[p e] |]; [| done].
  destruct (Z.ltb_spec (Redis.now (redis w)) e); [done |].
  intros _. destruct (Z.ltb_spec (Redis.now (redis w) + seconds) e); [lia | done].
Qed.



(** ** Zones the encoder has not seen *)

Lemma insert_unique_elem (v : value) (l l' : list value) :
  insert_unique v l = Ok l' -> forall x, x ∈ l' -> x = v \/ x ∈ l.
Proof.
  revert l'. induction l as [| y l IH]; intros l' Hi x Hx; simpl in Hi.
  - inversion Hi; subst. apply list_elem_of_singleton in Hx. by left.
  - destruct (value_compare v y) as [[] |]; try discriminate.
    + inversion Hi; subst. by right.
    + inversion Hi; subst. apply elem_of_cons in Hx as [-> | Hx]; [by left | by right].
    + unfold_monad. destruct (insert_unique v l) as [l'' |]; [| discriminate].
      inversion Hi; subst. apply elem_of_cons in Hx as [-> | Hx].
      * right. apply elem_of_cons. by left.
      * destruct (IH l'' eq_refl x Hx) as [-> | Hin]; [by left |].
        right. apply elem_of_cons. by right.
Qed.

Lemma unique_elem (col u : list value) :
  unique col = Ok u -> forall x, x ∈ u -> x ∈ col.
Proof.
  revert u. induction col as [| v col IH]; intros u Hu x Hx; simpl in Hu.
  - inversion Hu; subst. done.
  - unfold_monad. destruct (unique col) as [u' |]; [| discriminate].
    destruct (insert_unique_elem v u' u Hu x Hx) as [-> | Hin].
    + apply elem_of_cons. by left.
    + apply elem_of_cons. right. by apply IH with u'.
Qed.

Lemma class_index_Some (v : value) (classes : list value) (k : Z) :
  class_index v classes = Some k -> exists c, c ∈ classes /\ value_eqb c v = true.
Proof.
  revert k. induction classes as [| c classes IH]; intros k Hk; simpl in Hk.
  - discriminate.
  - destruct (value_eqb c v) eqn:Hcv.
    + exists c. split; [apply elem_of_cons; by left | done].
    + destruct (class_index v classes) as [k' |]; [| discriminate].
      destruct (IH k' eq_refl) as (c' & Hin & Heq).
      exists c'. split; [apply elem_of_cons; by right | done].
Qed.

Lemma value_eqb_VStr (c : value) (z : string) : value_eqb c (VStr z) = true -> c = VStr z.
Proof.
  destruct c; simpl; try discriminate. intros Hz. by apply String.eqb_eq in Hz as ->.
Qed.

(** A string absent from the column an encoder was fitted on has no
    code. *)
Lemma unseen_has_no_code (zone codes : list value) (enc : LabelEncoder) (z : string) :
  le_fit_transform zone = Ok (enc, codes) -> VStr z ∉ zone ->
  exists classes, classes_ enc = Some classes /\ class_index (VStr z) classes = None.
Proof.
  unfold le_fit_transform. unfold_monad. intros Hfit Hz.
  destruct (unique zone) as [classes |] eqn:Hu; [| discriminate].
  destruct (encode classes zone); [| discriminate].
  inversion Hfit; subst. exists classes. split; [done |].
  destruct (class_index (VStr z) classes) as [k |] eqn:Hk; [| done].
  destruct (class_index_Some _ _ _ Hk) as (c & Hin & Heq).
  apply value_eqb_VStr in Heq as ->.
  destruct Hz. by apply unique_elem with classes.
Qed.

Lemma predict_table_unseen (self : CrowdPredictor) (dt : datetime) (stop : Stop.t)
    (route : option Route.t) (classes : list value) :
  classes_ (label_encoder self) = Some classes ->
  class_index (VStr (or_unknown (Stop.zone_id stop))) classes = None ->
  predict_table self (predict_features dt stop route) = Raise unseen_label.
Proof.
  intros Hc Hi. unfold predict_table, predict_features, le_transform. unfold_monad.
  simpl. rewrite Hc. unfold cell. simpl. by rewrite Hi.
Qed.

Lemma predict_unseen_zone (w : World) (t s d e : string) (stop : Stop.t)
    (classes : list value) :
  is_trained (crowd_predictor w) = true ->
  first_stop s (db w) = Some stop ->
  classes_ (label_encoder (crowd_predictor w)) = Some classes ->
  class_index (VStr (or_unknown (Stop.zone_id stop))) classes = None ->
  exists msg, predict t s d e w = (Raise (ValueError msg), w).
Proof.
  intros Ht Hs Hc Hi. unfold predict. unfold_monad. rewrite Ht. simpl.
  unfold strptime. destruct (parse_datetime _) as [dt |]; [| by eexists].
  rewrite Hs. destruct (first_trip t (db w)) as [trip |]; [| by eexists].
  rewrite (predict_table_unseen _ _ _ _ classes) by done. by eexists.
Qed.

(** C10. For a trained model whose encoder was fitted on the zone
    column [zone], a prediction for a stop whose zone (or ["unknown"] for
    a missing one) is not in [zone] fails in [predict] with a
    [ValueError], which [predict_crowd] surfaces as a 400; so does the
    endpoint whenever the cache probe misses and the trip exists. *)
Theorem predict_unseen_zone_is_400
    (w : World) (request : PredictionRequest.t) (stop : Stop.t)
    (zone codes : list value) :
  is_trained (crowd_predictor w) = true ->
  first_stop (PredictionRequest.stop_id request) (db w) = Some stop ->
  le_fit_transform zone = Ok (label_encoder (crowd_predictor w), codes) ->
  VStr (or_unknown (Stop.zone_id stop)) ∉ zone ->
  (exists msg,
      predict (PredictionRequest.trip_id request) (PredictionRequest.stop_id request)
              (PredictionRequest.departure_time request) (PredictionRequest.date request)
              w = (Raise (ValueError msg), w)) /\
  (exists msg,
      predict_crowd_compute request w =
        (Raise (HTTPException 400 (Formatted "" (ValueError msg))), w)) /\
  (fst (get_prediction (PredictionRequest.trip_id request)
          (PredictionRequest.stop_id request) (PredictionRequest.departure_time request)
          (PredictionRequest.date request) w) = Ok None ->
   is_Some (first_trip (PredictionRequest.trip_id request) (db w)) ->
   status_code (fst (predict_crowd request w)) = 400).
Proof.
  intros Ht Hs Hfit Hz.
  destruct (unseen_has_no_code _ _ _ _ Hfit Hz) as (classes & Hc & Hi).
  assert (Hcompute : forall w', db w' = db w -> crowd_predictor w' = crowd_predictor w ->
            exists msg, predict_crowd_compute request w' =
              (Raise (HTTPException 400 (Formatted "" (ValueError msg))), w')).
  { intros w' Hdb Hp.
    destruct (predict_unseen_zone w' (PredictionRequest.trip_id request)
                (PredictionRequest.stop_id request)
                (PredictionRequest.departure_time request)
                (PredictionRequest.date request) stop classes) as [msg Hm];
      try (by rewrite ?Hdb, ?Hp).
    exists msg. unfold predict_crowd_compute. unfold_monad. by rewrite Hm. }
  split; [by eapply predict_unseen_zone |]. split; [by apply Hcompute |].
  intros Hmiss [trip Htrip].
  rewrite get_prediction_eq in Hmiss. simpl in Hmiss. injection Hmiss as Hnone.
  unfold predict_crowd. unfold_monad. rewrite get_prediction_eq, Hnone.
  unfold predict_crowd_uncached. unfold_monad. simpl.
  rewrite Htrip, Hs.
  destruct (Hcompute (set_redis (after_command (redis w)) w) eq_refl eq_refl)
    as [msg ->].
  done.
Qed.

(** ** What a failed training leaves behind *)

Lemma prepare_features_predictor o s r (w : World) :
  crowd_predictor (snd (prepare_features o s r w)) = crowd_predictor w.
Proof. by apply (prepare_features_keeps crowd_predictor). Qed.

(** The two fits of [fit_features], and what each leaves in [self]. *)
Lemma fit_features_inv (X : DataFrame) (w w1 : World) (out : result DataFrame) :
  fit_features X w = (out, w1) ->
  let p := crowd_predictor w in
  match out with
  | Ok Xf =>
      exists zone enc codes numeric sc,
        getitem X "zone_id" = Ok zone /\
        le_fit_transform zone = Ok (enc, codes) /\
        getitems (setitem X "zone_id" codes) numerical_cols = Ok numeric /\
        scaler_fit (rows numeric) = Ok sc /\
        Xf = setitems (setitem X "zone_id" codes) numerical_cols 0
               (map (scaler_transform sc) (rows numeric)) /\
        w1 = set_crowd_predictor (set_scaler (Some sc) (set_label_encoder enc p)) w
  | Raise _ =>
      w1 = w \/
      exists zone enc codes,
        getitem X "zone_id" = Ok zone /\
        le_fit_transform zone = Ok (enc, codes) /\
        w1 = set_crowd_predictor (set_label_encoder enc p) w
  end.
Proof.
  unfold fit_features. unfold_monad.
  destruct (getitem X "zone_id") as [zone |] eqn:Hz;
    [| intros Hf; inversion Hf; subst; by left].
  destruct (le_fit_transform zone) as [[enc codes] |] eqn:He;
    [| intros Hf; inversion Hf; subst; by left].
  simpl.
  destruct (getitems _ numerical_cols) as [numeric |] eqn:Hn;
    [| intros Hf; inversion Hf; subst; right; by exists zone, enc, codes].
  destruct (scaler_fit (rows numeric)) as [sc |] eqn:Hs;
    [| intros Hf; inversion Hf; subst; right; by exists zone, enc, codes].
  intros Hf. inversion Hf; subst. simpl.
  by exists zone, enc, codes, numeric, sc.
Qed.

(** The run of [train], step by step. *)
Lemma train_inv o s r (w w' : World) (out : result TrainResult) :
  train o s r w = (out, w') ->
  exists rp w0,
    prepare_features o s r w = (rp, w0) /\
    crowd_predictor w0 = crowd_predictor w /\
    match rp with
    | Raise e => out = Raise e /\ w' = w0
    | Ok df =>
        match getitems df (feature_columns (crowd_predictor w)) with
        | Raise e => out = Raise e /\ w' = w0
        | Ok X =>
            match getitem df "crowd_level" with
            | Raise e => out = Raise e /\ w' = w0
            | Ok y =>
                exists rf w1,
                  fit_features X w0 = (rf, w1) /\
                  match rf with
                  | Raise e => out = Raise e /\ w' = w1
                  | Ok Xf =>
                      match train_test_split (rows Xf) y with
                      | Raise e => out = Raise e /\ w' = w1
                      | Ok (X_train, X_test, y_train, y_test) =>
                          match forest_fit X_train y_train with
                          | Raise e => out = Raise e /\ w' = w1
                          | Ok forest =>
                              out = Ok (mkTrainResult
                                          (accuracy_score y_test
                                             (map (forest_predict forest) X_test))
                                          (classification_report y_test
                                             (map (forest_predict forest) X_test))) /\
                              w' = set_crowd_predictor
                                     (set_is_trained true
                                        (set_model (Some forest) (crowd_predictor w1)))
                                     w1
                          end
                      end
                  end
            end
        end
    end.
Proof.
  intros Ht. unfold train in Ht.
  pose proof (prepare_features_predictor o s r w) as Hp.
  destruct (prepare_features o s r w) as [rp w0] eqn:Hprep. simpl in Hp.
  exists rp, w0. split; [done |]. split; [done |].
  unfold_monad. rewrite Hprep in Ht.
  destruct rp as [df | e]; [| by inversion Ht].
  rewrite Hp in Ht.
  destruct (getitems df _) as [X | e]; [| by inversion Ht].
  destruct (getitem df "crowd_level") as [y | e]; [| by inversion Ht].
  destruct (fit_features X w0) as [rf w1] eqn:Hfit. exists rf, w1. split; [done |].
  destruct rf as [Xf | e]; [| by inversion Ht].
  destruct (train_test_split (rows Xf) y) as [[[[X_train X_test] y_train] y_test] | e];
    [| by inversion Ht].
  destruct (forest_fit X_train y_train) as [forest | e]; [| by inversion Ht].
  by inversion Ht.
Qed.



(** ** Features at training and at inference *)








(** The feature list survives every training run. *)
Lemma train_feature_columns o s r (w : World) :
  feature_columns (crowd_predictor (snd (train o s r w))) =
  feature_columns (crowd_predictor w).
Proof.
  destruct (train o s r w) as [out w'] eqn:Ht. simpl.
  destruct (train_inv _ _ _ _ _ _ Ht) as (rp & w0 & Hprep & Hp0 & Hrun).
  destruct rp as [df | e0]; [| destruct Hrun as [_ ->]; by rewrite Hp0].
  destruct (getitems df _) as [X | e0]; [| destruct Hrun as [_ ->]; by rewrite Hp0].
  destruct (getitem df "crowd_level") as [y | e0];
    [| destruct Hrun as [_ ->]; by rewrite Hp0].
  destruct Hrun as (rf & w1 & Hfit & Hrun).
  pose proof (fit_features_inv _ _ _ _ Hfit) as Hinv. simpl in Hinv.
  assert (Hw1 : feature_columns (crowd_predictor w1) =
                feature_columns (crowd_predictor w)).
  { rewrite <- Hp0. destruct rf as [Xf | e0].
    - by destruct Hinv as (? & ? & ? & ? & ? & _ & _ & _ & _ & _ & ->).
    - by destruct Hinv as [-> | (? & ? & ? & _ & _ & ->)]. }
  destruct rf as [Xf | e0]; [| by destruct Hrun as [_ ->]].
  destruct (train_test_split _ _) as [[[[X_train X_test] y_train] y_test] | e0];
    [| by destruct Hrun as [_ ->]].
  destruct (forest_fit _ _) as [forest | e0]; [| by destruct Hrun as [_ ->]].
  destruct Hrun as [_ ->]. done.
Qed.

(** * Further properties of the handlers *)

(** ** The training endpoint *)

(** X1. [train_model] never trains anything: whatever the database
    holds, it answers 500 and leaves the predictor, the model file, the
    database, the Redis server and NumPy's generator exactly as they
    were. The error it wraps is its own 400 when there is no
    observation, the [KeyError] of the first join when there is no stop,
    and the [KeyError] of the join on [route_id] otherwise. *)
Theorem train_model_changes_nothing (w : World) :
  train_model w =
    (Raise (HTTPException 500
              (Formatted "Training failed: "
                 match observations (db w), stops (db w) with
                 | [], _ => HTTPException 400 (Literal "No observations found for training")
                 | _ :: _, [] => KeyError "stop_id"
                 | _ :: _, _ :: _ => KeyError "route_id"
                 end)), w).
Proof.
  unfold train_model. unfold_monad.
  destruct (observations (db w)) as [| o os]; [reflexivity |].
  destruct (stops (db w)) as [| s ss]; reflexivity.
Qed.

(** ** The prediction cache *)

Lemma faults_nil_next (r : Redis.t) :
  Redis.faults r = [] -> next_fails r = false /\ after_command r = r.
Proof. unfold next_fails, after_command. by intros ->. Qed.

(** X2. With a healthy connection a stored prediction is read back under
    the same four identifiers for the next [CACHE_TTL] seconds and is a
    miss from then on, and storing it does not change what is read under
    any other key. *)
Theorem cached_prediction_lifetime (w : World) (t s d e : string)
    (data : PredictionResponse.t) (seconds : Z) :
  Redis.faults (redis w) = [] ->
  0 <= seconds ->
  let w1 := snd (set_prediction t s d e data w) in
  fst (set_prediction t s d e data w) = Ok true /\
  fst (get_prediction t s d e (elapse seconds w1)) =
    Ok (if seconds <? CACHE_TTL then Some data else None) /\
  (forall t' s' d' e' : string,
     cache_key t' s' d' e' <> cache_key t s d e ->
     fst (get_prediction t' s' d' e' (elapse seconds w1)) =
     fst (get_prediction t' s' d' e' (elapse seconds w))).
Proof.
  intros Hf Hs. destruct (faults_nil_next _ Hf) as [Hn Ha].
  rewrite set_prediction_eq, Hn, Ha. simpl.
  split; [done |].
  split.
  - rewrite get_prediction_eq. simpl.
    unfold next_fails. simpl. rewrite Hf. f_equal.
    unfold Redis.live. simpl. rewrite lookup_insert_eq.
    unfold CACHE_TTL.
    destruct (Z.ltb_spec (Redis.now (redis w) + seconds) (Redis.now (redis w) + 3600));
      destruct (Z.ltb_spec seconds 3600); try lia; reflexivity.
  - intros t' s' d' e' Hk. rewrite !get_prediction_eq. simpl.
    unfold next_fails. simpl. rewrite Hf. do 2 f_equal.
    unfold Redis.live. simpl. by rewrite lookup_insert_ne.
Qed.

Lemma predict_Ok_inv (t s d e : string) (w : World) (level : value) (conf : Q)
    (feats : list string) :
  fst (predict t s d e w) = Ok (level, conf, feats) ->
  is_trained (crowd_predictor w) = true /\ feats = feature_columns (crowd_predictor w).
Proof.
  unfold predict. unfold_monad.
  destruct (is_trained (crowd_predictor w)); simpl; [| done].
  repeat match goal with
         | |- context [match ?x with _ => _ end] => destruct x; simpl; try done
         end.
  intros [= _ _ <-]. done.
Qed.

(** X3. A request that misses the cache, for a trip and a stop of the
    database, on which the predictor returns a label: the response
    echoes the four request fields, carries the label, the confidence,
    the historical average of that trip and stop and the feature list of
    the predictor, and it is stored under the request's key until
    [CACHE_TTL] seconds from now; the database and the predictor are as
    before. *)
Theorem predict_crowd_computes_and_stores (w : World) (request : PredictionRequest.t)
    (level : string) (conf : Q) (feats : list string) (average : option Z) :
  let t := PredictionRequest.trip_id request in
  let s := PredictionRequest.stop_id request in
  let d := PredictionRequest.departure_time request in
  let e := PredictionRequest.date request in
  Redis.faults (redis w) = [] ->
  decode (Redis.live (redis w) (cache_key t s d e)) = None ->
  is_Some (first_trip t (db w)) -> is_Some (first_stop s (db w)) ->
  fst (predict t s d e w) = Ok (VStr level, conf, feats) ->
  fst (_get_historical_average t s w) = Ok average ->
  let response := PredictionResponse.mk t s d e level conf average
                    (feature_columns (crowd_predictor w)) in
  fst (predict_crowd request w) = Ok response /\
  Redis.store (redis (snd (predict_crowd request w))) =
    <[cache_key t s d e := (Redis.Encoded response, Redis.now (redis w) + CACHE_TTL)]>
      (Redis.store (redis w)) /\
  db (snd (predict_crowd request w)) = db w /\
  crowd_predictor (snd (predict_crowd request w)) = crowd_predictor w.
Proof.
  intros t s d e Hf Hmiss [trip Htrip] [stop Hstop] Hp Hh.
  destruct (predict_Ok_inv _ _ _ _ _ _ _ _ Hp) as [_ ->].
  destruct (faults_nil_next _ Hf) as [Hn Ha].
  unfold predict_crowd. unfold_monad.
  rewrite get_prediction_eq, Hn, Ha, set_redis_same.
  fold t s d e. rewrite Hmiss.
  unfold predict_crowd_uncached. unfold_monad. fold t s. rewrite Htrip, Hstop.
  unfold predict_crowd_compute. unfold_monad. fold t s d e.
  destruct (predict_reads t s d e w w eq_refl eq_refl) as (r & Hr & _).
  rewrite Hr in Hp |- *. simpl in Hp. subst r.
  pose proof (historical_average_reads t s w) as Hw.
  destruct (_get_historical_average t s w) as [h w'].
  simpl in Hh. subst h. injection Hw as _ ->. simpl.
  rewrite set_prediction_eq, Hn, Ha. simpl. done.
Qed.

(** X4. Once [predict_crowd] has answered a request over a healthy
    connection, the response sits in the cache with an expiry in the
    future, and until then every later call with the same request
    returns the same response and changes nothing, whatever has become
    of the database, the predictor and the model file in between. *)
Theorem predict_crowd_repeats (w : World) (request : PredictionRequest.t)
    (response : PredictionResponse.t) :
  let key := cache_key (PredictionRequest.trip_id request)
                       (PredictionRequest.stop_id request)
                       (PredictionRequest.departure_time request)
                       (PredictionRequest.date request) in
  Redis.faults (redis w) = [] ->
  fst (predict_crowd request w) = Ok response ->
  exists expiry,
    Redis.store (redis (snd (predict_crowd request w))) !! key
      = Some (Redis.Encoded response, expiry) /\
    Redis.now (redis w) < expiry /\
    forall w2 : World,
      Redis.store (redis w2) = Redis.store (redis (snd (predict_crowd request w))) ->
      Redis.faults (redis w2) = [] ->
      Redis.now (redis w2) < expiry ->
      predict_crowd request w2 = (Ok response, w2).
Proof.
  intros key Hf Hr.
  assert (Hlater : forall (x : Redis.t) expiry,
            Redis.store x !! key = Some (Redis.Encoded response, expiry) ->
            forall w2 : World,
              Redis.store (redis w2) = Redis.store x ->
              Redis.faults (redis w2) = [] ->
              Redis.now (redis w2) < expiry ->
              predict_crowd request w2 = (Ok response, w2)).
  { intros x expiry Hx w2 Hs Hf2 Hnow.
    destruct (faults_nil_next _ Hf2) as [Hn2 Ha2].
    unfold predict_crowd. unfold_monad.
    rewrite get_prediction_eq, Hn2, Ha2, set_redis_same. fold key.
    unfold Redis.live. rewrite Hs, Hx.
    destruct (Z.ltb_spec (Redis.now (redis w2)) expiry); [done | lia]. }
  destruct (faults_nil_next _ Hf) as [Hn Ha].
  revert Hr. unfold predict_crowd at 1 2 3. unfold_monad.
  rewrite get_prediction_eq, Hn, Ha, set_redis_same. fold key.
  destruct (decode (Redis.live (redis w) key)) as [c |] eqn:Hd.
  - simpl. intros [= ->].
    unfold Redis.live in Hd.
    destruct (Redis.store (redis w) !! key) as [[p expiry] |] eqn:Hk; [| done].
    destruct (Z.ltb_spec (Redis.now (redis w)) expiry); [| done].
    destruct p as [c |]; [| done]. injection Hd as ->.
    exists expiry. split; [done |]. split; [done |]. by apply (Hlater (redis w)).
  - unfold predict_crowd_uncached. unfold_monad.
    destruct (first_trip _ (db w)); [| done].
    destruct (first_stop _ (db w)); [| done].
    unfold predict_crowd_compute. unfold_monad.
    destruct (predict_reads (PredictionRequest.trip_id request)
                (PredictionRequest.stop_id request)
                (PredictionRequest.departure_time request)
                (PredictionRequest.date request) w w eq_refl eq_refl) as (r & -> & _).
    destruct r as [[[level conf] feats] | ex]; [| by destruct (is_ValueError ex)].
    rewrite historical_average_reads. simpl.
    destruct (make_response _ _ _ _ _) as [resp | ex] eqn:Hm; simpl;
      [| by destruct (is_ValueError ex)].
    rewrite set_prediction_eq, Hn, Ha. simpl. intros [= ->].
    exists (Redis.now (redis w) + CACHE_TTL).
    assert (Hk : <[key := (Redis.Encoded response, Redis.now (redis w) + CACHE_TTL)]>
                   (Redis.store (redis w)) !! key
                 = Some (Redis.Encoded response, Redis.now (redis w) + CACHE_TTL))
      by apply lookup_insert_eq.
    split; [exact Hk |]. split; [unfold CACHE_TTL; lia |].
    intros w2 Hs.
    by apply (Hlater (Redis.set_store
                        (<[key := (Redis.Encoded response, Redis.now (redis w) + CACHE_TTL)]>
                           (Redis.store (redis w))) (redis w))).
Qed.

(** ** Invalidation *)

(** What [invalidate_predictions] does to the server: it never raises,
    touches nothing but the Redis server, and either leaves the store as
    it is or deletes the keys [KEYS] listed; the latter when the
    connection is healthy, the former when the first command fails. *)
Lemma invalidate_predictions_effect (w : World) (a b : option string) :
  let ks := fst (Redis.KEYS (invalidation_pattern a b) (redis w)) in
  exists r, invalidate_predictions a b w = (Ok tt, set_redis r w) /\
    Redis.now r = Redis.now (redis w) /\
    (Redis.store r = Redis.store (redis w) \/
     Redis.store r = foldr delete (Redis.store (redis w)) ks) /\
    (next_fails (redis w) = true -> Redis.store r = Redis.store (redis w)) /\
    (Redis.faults (redis w) = [] ->
       Redis.faults r = [] /\ Redis.store r = foldr delete (Redis.store (redis w)) ks).
Proof.
  intros ks. subst ks.
  remember (fst (Redis.KEYS (invalidation_pattern a b) (redis w))) as ks eqn:Hks.
  unfold invalidate_predictions, command, next_fails. unfold_monad.
  destruct (Redis.faults (redis w)) as [| [] fs] eqn:Hf.
  - change (Redis.KEYS (invalidation_pattern a b) (redis w))
      with (fst (Redis.KEYS (invalidation_pattern a b) (redis w)), redis w).
    rewrite <- Hks. cbv iota beta. clear Hks. destruct ks as [| k0 ks'].
    + exists (redis w). simpl. repeat split; auto.
    + simpl. rewrite Hf. simpl. eexists. split; [reflexivity |].
      simpl. repeat split; auto; done.
  - simpl. exists (Redis.set_faults fs (redis w)). simpl. repeat split; auto; done.
  - change (Redis.KEYS (invalidation_pattern a b) (Redis.set_faults fs (redis w)))
      with (fst (Redis.KEYS (invalidation_pattern a b) (redis w)),
            Redis.set_faults fs (redis w)).
    rewrite <- Hks. cbv iota beta. clear Hks. destruct ks as [| k0 ks'].
    + exists (Redis.set_faults fs (redis w)). simpl. repeat split; auto; done.
    + simpl. destruct fs as [| [] fs']; simpl;
        (eexists; split; [reflexivity |]); simpl; repeat split; auto; done.
Qed.

Lemma glob_star_absorbs (t p s : string) (fuel : nat) :
  Redis.glob fuel p s = true ->
  Redis.glob (String.length t + S fuel) (String "*" p) (t +:+ s) = true.
Proof.
  intros Hg. induction t as [| c t IH].
  - by apply glob_star_skip.
  - change (Redis.glob (S (String.length t + S fuel)) (String "*" p)
              (String c (t +:+ s)) = true).
    simpl. simpl in IH. rewrite IH. apply orb_true_r.
Qed.

(** A star between two literal texts matches any text in that place. *)
Lemma matches_star_absorbs (a b t rest : string) :
  Redis.no_meta a = true -> Redis.no_meta b = true ->
  Redis.matches (a +:+ "*" +:+ b +:+ "*") (a +:+ t +:+ b +:+ rest) = true.
Proof.
  intros Ha Hb. unfold Redis.matches.
  assert (HF : S (String.length (a +:+ "*" +:+ b +:+ "*")
                  + String.length (a +:+ t +:+ b +:+ rest)) =
               (String.length a +
                (String.length t +
                 S (String.length b + (String.length a + String.length b
                                       + String.length rest + 2))))%nat).
  { rewrite !string_length_app. change (String.length "*") with 1%nat. lia. }
  rewrite HF, glob_literal by done.
  change ("*" +:+ b +:+ "*") with (String "*" (b +:+ "*")).
  apply glob_star_absorbs.
  rewrite glob_literal by done. apply glob_star_all. lia.
Qed.

Lemma invalidation_pattern_selects (a b : option string) (T S time date : string) :
  selects a T -> selects b S ->
  Redis.matches (invalidation_pattern a b) (cache_key T S time date) = true.
Proof.
  assert (Hall : Redis.matches "prediction:*" (cache_key T S time date) = true).
  { apply (matches_prefix_star "prediction:"
             (T +:+ ":" +:+ S +:+ ":" +:+ time +:+ ":" +:+ date)). done. }
  intros [Ha | [-> HT]] [Hb | [-> HS]].
  - unfold invalidation_pattern. by rewrite Ha, Hb.
  - unfold invalidation_pattern. rewrite Ha. simpl andb. cbv iota.
    destruct (str_truthy (Some S)); [| done].
    unfold cache_key, str_of. simpl default.
    change ("prediction:*:" +:+ S +:+ ":*")
      with ("prediction:" +:+ "*" +:+ (":" +:+ S +:+ ":*")).
    replace (":" +:+ S +:+ ":*") with ((":" +:+ S +:+ ":") +:+ "*")
      by (by rewrite !string_app_assoc).
    replace ("prediction:" +:+ T +:+ ":" +:+ S +:+ ":" +:+ time +:+ ":" +:+ date)
      with ("prediction:" +:+ T +:+ (":" +:+ S +:+ ":") +:+ (time +:+ ":" +:+ date))
      by (by rewrite !string_app_assoc).
    apply matches_star_absorbs; [done |].
    rewrite !no_meta_app, HS. done.
  - unfold invalidation_pattern. rewrite Hb, andb_false_r.
    destruct (str_truthy (Some T)); [| done].
    unfold cache_key, str_of. simpl default.
    replace ("prediction:" +:+ T +:+ ":*")
      with (("prediction:" +:+ T +:+ ":") +:+ "*")
      by (by rewrite !string_app_assoc).
    replace ("prediction:" +:+ T +:+ ":" +:+ S +:+ ":" +:+ time +:+ ":" +:+ date)
      with (("prediction:" +:+ T +:+ ":") +:+ (S +:+ ":" +:+ time +:+ ":" +:+ date))
      by (by rewrite !string_app_assoc).
    apply matches_prefix_star. rewrite !no_meta_app, HT. done.
  - by apply invalidation_pattern_covers.
Qed.

(** X5. Over a healthy connection [invalidate_predictions] reaches every
    cached prediction its arguments select: an argument that is omitted
    or empty selects every identifier, an argument without pattern
    characters selects itself. After the call no such entry is live, and
    a read under any such key is a miss from then on. With both
    arguments omitted this is every prediction key. *)
Theorem invalidation_reaches_selected_keys (w : World) (a b : option string)
    (T S time date : string) (seconds : Z) :
  Redis.faults (redis w) = [] ->
  selects a T -> selects b S ->
  0 <= seconds ->
  let w1 := snd (invalidate_predictions a b w) in
  fst (invalidate_predictions a b w) = Ok tt /\
  Redis.live (redis w1) (cache_key T S time date) = None /\
  fst (get_prediction T S time date (elapse seconds w1)) = Ok None.
Proof.
  intros Hf Ha Hb Hs w1. subst w1.
  pose proof (invalidation_pattern_selects a b T S time date Ha Hb) as Hm.
  destruct (invalidate_predictions_effect w a b) as (r & Hrun & Hnow & _ & _ & Hh).
  destruct (Hh Hf) as [Hfr Hstore]. rewrite Hrun. cbn [fst snd].
  assert (Hl : Redis.live (redis (set_redis r w)) (cache_key T S time date) = None).
  { pose proof (live_after_DEL (redis w) _ _ Hm) as Hdel.
    unfold Redis.live in Hdel |- *. simpl in Hdel. simpl.
    by rewrite Hstore, Hnow. }
  split; [done |]. split; [exact Hl |].
  rewrite get_prediction_eq. cbn [fst].
  rewrite (live_elapse (set_redis r w) _ seconds Hs Hl).
  assert (Hn : next_fails (redis (elapse seconds (set_redis r w))) = false)
    by (unfold next_fails; simpl; by rewrite Hfr).
  by rewrite Hn.
Qed.

(** X6. [invalidate_predictions] never raises and changes nothing but
    the Redis store, where it only deletes: every key keeps its entry or
    loses it, and a key that loses it matched the pattern and was live.
    When the first command fails the store is left as it was. *)
Theorem invalidation_only_deletes (w : World) (a b : option string) :
  exists r,
    invalidate_predictions a b w = (Ok tt, set_redis r w) /\
    Redis.now r = Redis.now (redis w) /\
    (forall k, Redis.store r !! k = Redis.store (redis w) !! k \/
               (Redis.store r !! k = None /\
                Redis.matches (invalidation_pattern a b) k = true /\
                is_Some (Redis.live (redis w) k))) /\
    (next_fails (redis w) = true -> Redis.store r = Redis.store (redis w)).
Proof.
  destruct (invalidate_predictions_effect w a b) as (r & Hrun & Hnow & Hstore & Hfail & _).
  exists r. split; [done |]. split; [done |]. split; [| done].
  intros k. destruct Hstore as [-> | ->]; [by left |].
  set (ks := fst (Redis.KEYS (invalidation_pattern a b) (redis w))).
  destruct (decide (k ∈ ks)) as [Hin | Hout].
  - right. split; [by rewrite lookup_foldr_delete |].
    unfold ks, Redis.KEYS in Hin. simpl in Hin.
    apply list_elem_of_filter in Hin as [[Hm Hl] _]. done.
  - left. by rewrite lookup_foldr_delete_not_elem_of.
Qed.

(** ** Cache keys *)

Lemma string_app_inv_head (a x y : string) : a +:+ x = a +:+ y -> x = y.
Proof.
  induction a as [| c a IH]; [done |].
  change (String c (a +:+ x) = String c (a +:+ y) -> x = y).
  intros [= Heq]. by apply IH.
Qed.

Lemma no_colon_sep (a x : string) : no_colon (a +:+ ":" +:+ x) = false.
Proof.
  induction a as [| c a IH]; [done |].
  change (no_colon (String c (a +:+ ":" +:+ x)) = false).
  simpl. rewrite IH. apply andb_false_r.
Qed.

(** Splitting at the first separator. *)
Lemma split_first_colon (a a' x x' : string) :
  no_colon a = true -> no_colon a' = true ->
  a +:+ ":" +:+ x = a' +:+ ":" +:+ x' -> a = a' /\ x = x'.
Proof.
  revert a'. induction a as [| c a IH]; intros [| c' a'] Ha Ha'.
  - change (String ":" x = String ":" x' -> "" = "" /\ x = x'). by intros [= ->].
  - change (String ":" x = String c' (a' +:+ ":" +:+ x') -> "" = String c' a' /\ x = x').
    intros [= <- _]. done.
  - change (String c (a +:+ ":" +:+ x) = String ":" x' -> String c a = "" /\ x = x').
    intros [= -> _]. done.
  - change (String c (a +:+ ":" +:+ x) = String c' (a' +:+ ":" +:+ x') ->
            String c a = String c' a' /\ x = x').
    intros [= -> Heq]. simpl in Ha, Ha'.
    apply andb_true_iff in Ha as [_ Ha]. apply andb_true_iff in Ha' as [_ Ha'].
    destruct (IH a' Ha Ha' Heq) as [-> ->]. done.
Qed.

(** Splitting at the last separator. *)
Lemma split_last_colon (a a' x x' : string) :
  no_colon x = true -> no_colon x' = true ->
  a +:+ ":" +:+ x = a' +:+ ":" +:+ x' -> a = a' /\ x = x'.
Proof.
  intros Hx Hx'. revert a'. induction a as [| c a IH]; intros [| c' a'].
  - change (String ":" x = String ":" x' -> "" = "" /\ x = x'). by intros [= ->].
  - change (String ":" x = String c' (a' +:+ ":" +:+ x') -> "" = String c' a' /\ x = x').
    intros [= _ Heq]. by rewrite Heq, no_colon_sep in Hx.
  - change (String c (a +:+ ":" +:+ x) = String ":" x' -> String c a = "" /\ x = x').
    intros [= _ Heq]. by rewrite <- Heq, no_colon_sep in Hx'.
  - change (String c (a +:+ ":" +:+ x) = String c' (a' +:+ ":" +:+ x') ->
            String c a = String c' a' /\ x = x').
    intros [= -> Heq]. destruct (IH a' Heq) as [-> ->]. done.
Qed.

(** X7. Two requests whose trip, stop and date hold no colon have the
    same cache key only if they agree on all four fields (the departure
    time may hold colons, as in 08:00:00): such requests never read each
    other's entries. *)
Theorem cache_key_injective (T S time date T' S' time' date' : string) :
  no_colon T = true -> no_colon S = true -> no_colon date = true ->
  no_colon T' = true -> no_colon S' = true -> no_colon date' = true ->
  cache_key T S time date = cache_key T' S' time' date' ->
  T = T' /\ S = S' /\ time = time' /\ date = date'.
Proof.
  intros HT HS Hd HT' HS' Hd' Hk. unfold cache_key in Hk.
  apply string_app_inv_head in Hk.
  apply split_first_colon in Hk as [-> Hk]; [| done | done].
  apply split_first_colon in Hk as [-> Hk]; [| done | done].
  apply split_last_colon in Hk as [-> ->]; done.
Qed.

(** X8. The key does not tell where the trip ends and the stop begins
    when an identifier holds a colon: the request for trip [a] and stop
    [b:c] and the request for trip [a:b] and stop [c] share one entry,
    so over a healthy connection a prediction stored for the first is
    what a read for the second returns. *)
Theorem colon_identifiers_share_entries (w : World) (a b c time date : string)
    (data : PredictionResponse.t) :
  Redis.faults (redis w) = [] ->
  cache_key a (b +:+ ":" +:+ c) time date = cache_key (a +:+ ":" +:+ b) c time date /\
  fst (get_prediction (a +:+ ":" +:+ b) c time date
         (snd (set_prediction a (b +:+ ":" +:+ c) time date data w))) = Ok (Some data).
Proof.
  intros Hf.
  assert (Hk : cache_key a (b +:+ ":" +:+ c) time date
               = cache_key (a +:+ ":" +:+ b) c time date)
    by (unfold cache_key; by rewrite !string_app_assoc).
  split; [exact Hk |].
  destruct (faults_nil_next _ Hf) as [Hn Ha].
  rewrite set_prediction_eq, Hn, Ha, get_prediction_eq. cbn [fst snd].
  rewrite <- Hk. unfold next_fails, Redis.live. simpl. rewrite Hf, lookup_insert_eq.
  unfold CACHE_TTL.
  destruct (Z.ltb_spec (Redis.now (redis w)) (Redis.now (redis w) + 3600)); [done | lia].
Qed.

(** ** Recording observations *)


(** X10. A rejected observation changes nothing: whenever
    [create_observation] raises, the database, the cache, the predictor
    and the model file are as before, and the error is the 404 for an
    unknown trip, the 404 for an unknown stop of a known trip, or the
    integrity error of an id that is already stored. *)
Theorem create_observation_rejected (w : World) (o : Observation.t) (e : exn) :
  fst (create_observation o w) = Raise e ->
  snd (create_observation o w) = w /\
  ((e = HTTPException 404 (Literal "Trip not found") /\
    first_trip (Observation.trip_id o) (db w) = None) \/
   (e = HTTPException 404 (Literal "Stop not found") /\
    is_Some (first_trip (Observation.trip_id o) (db w)) /\
    first_stop (Observation.stop_id o) (db w) = None) \/
   (e = IntegrityError /\
    existsb (fun x => Observation.id x =? Observation.id o) (observations (db w)) = true)).
Proof.
  unfold create_observation. unfold_monad.
  destruct (first_trip _ (db w)) as [trip |] eqn:Htrip; simpl;
    [| intros [= <-]; split; [done | by left]].
  destruct (first_stop _ (db w)) as [stop |] eqn:Hstop; simpl;
    [| intros [= <-]; split; [done | right; left; eauto]].
  unfold insert_observation.
  destruct (existsb _ (observations (db w))) eqn:Hdup; simpl;
    [intros [= <-]; split; [done | by right; right] |].
  destruct (invalidate_predictions_effect
              (set_db (mkDatabase (routes (db w)) (stops (db w)) (trips (db w))
                                  (observations (db w) ++ [o])) w)
              (Some (Observation.trip_id o)) (Some (Observation.stop_id o)))
    as (r & Hinv & _).
  rewrite Hinv. done.
Qed.

(** ** Status codes of the prediction endpoint *)



(** ** Consistency of the bundle *)








(** ** The model file *)

(** X13. The startup hook never raises. After [save_model], a restarted
    process that runs the hook holds the very bundle that was saved and
    answers every [predict] call as the old process did; with no model
    file it starts untrained and [predict] raises the not-ready error. *)
Theorem startup_restores_saved_model (w : World) (g : Rng) (t s d e : string) :
  let w1 := snd (startup_event (restart g (snd (save_model w)))) in
  let w2 := snd (startup_event (restart g (set_model_file None w))) in
  fst (startup_event w) = Ok tt /\
  crowd_predictor w1 = crowd_predictor w /\
  fst (predict t s d e w1) = fst (predict t s d e w) /\
  crowd_predictor w2 = CrowdPredictor_init /\
  fst (predict t s d e w2) = Raise not_ready.
Proof.
  intros w1 w2.
  assert (H1 : crowd_predictor w1 = crowd_predictor w) by reflexivity.
  split.
  { unfold startup_event, load_model. unfold_monad.
    by destruct (model_file w) as [f |] eqn:Hf; simpl; rewrite ?Hf. }
  split; [exact H1 |]. split.
  { destruct (predict_reads t s d e w w1 eq_refl H1) as (r & -> & ->). done. }
  split; [reflexivity |].
  by rewrite predict_untrained.
Qed.

(** ** Listing observations *)




(** ** The historical average *)




(** ** The feature table has one row per observation *)

Lemma setitem_rows_length (df : DataFrame) (c : string) (vals : list value) :
  length vals = length (rows df) ->
  length (rows (setitem df c vals)) = length (rows df).
Proof.
  intros Hl. unfold setitem.
  destruct (index_of c (columns df)); simpl; by rewrite length_zip_with_l_eq.
Qed.

Lemma getitem_length (df : DataFrame) (c : string) (col : list value) :
  getitem df c = Ok col -> length col = length (rows df).
Proof.
  unfold getitem. destruct (index_of c (columns df)); [| done].
  intros [= <-]. apply List.length_map.
Qed.

Lemma to_datetime_length (col ts : list value) :
  to_datetime col = Ok ts -> length ts = length col.
Proof.
  revert ts. induction col as [| v col IH]; intros ts; simpl.
  - by intros [= <-].
  - destruct v; try done; unfold_monad;
      (destruct (to_datetime col) as [ts' |]; [| done]);
      intros [= <-]; simpl; f_equal; by apply IH.
Qed.

Lemma fill_column_rows_length (df df' : DataFrame) (c : string) (k : value) :
  fill_column df c k = Ok df' -> length (rows df') = length (rows df).
Proof.
  unfold fill_column. unfold_monad.
  destruct (getitem df c) as [col |] eqn:Hc; [| done].
  intros [= <-]. apply setitem_rows_length.
  unfold fillna. rewrite List.length_map. by apply getitem_length in Hc.
Qed.

Lemma fill_columns_rows_length (cols : list string) (df df' : DataFrame) (k : value) :
  fill_columns df cols k = Ok df' -> length (rows df') = length (rows df).
Proof.
  revert df. induction cols as [| c cols IH]; intros df; simpl.
  - by intros [= <-].
  - unfold_monad. destruct (fill_column df c k) as [df1 |] eqn:H1; [| done].
    intros H2. rewrite (IH _ H2). by apply fill_column_rows_length in H1.
Qed.

Lemma value_eqb_common (a b v : value) :
  value_eqb a v = true -> value_eqb b v = true -> value_eqb a b = true.
Proof.
  destruct a, b, v; simpl; try done.
  - rewrite !Z.eqb_eq. congruence.
  - rewrite !Qeq_bool_iff. intros Ha Hb. by rewrite Ha, Hb.
  - rewrite !String.eqb_eq. congruence.
  - unfold datetime_eqb. rewrite !andb_true_iff, !Z.eqb_eq. intuition congruence.
Qed.

(** A key column without repetition has at most one row per key. *)
Lemma distinct_filter (j : nat) (v : value) (rs : list (list value)) :
  distinct (map (cell j) rs) = true ->
  (length (filter (fun rr => value_eqb (cell j rr) v = true) rs) <= 1)%nat.
Proof.
  induction rs as [| rr rs IH]; [simpl; lia |].
  simpl. intros Hd. apply andb_true_iff in Hd as [Hnew Hd]. specialize (IH Hd).
  destruct (value_eqb (cell j rr) v) eqn:Hrr.
  - rewrite filter_cons_True by done.
    assert (Hnone : filter (fun rr0 => value_eqb (cell j rr0) v = true) rs = []).
    { clear IH Hd. induction rs as [| r2 rs IH2]; [done |].
      simpl in Hnew. apply andb_true_iff in Hnew as [Hr2 Hnew].
      rewrite filter_cons_False; [by apply IH2 |].
      intros H2. apply negb_true_iff in Hr2.
      by rewrite (value_eqb_common _ _ _ Hrr H2) in Hr2. }
    rewrite Hnone. simpl. lia.
  - rewrite filter_cons_False by (by rewrite Hrr). exact IH.
Qed.

Lemma concat_singletons {A} (f : A -> list (list value)) (l : list A) :
  (forall x, length (f x) = 1%nat) -> length (concat (map f l)) = length l.
Proof.
  intros Hf. induction l as [| x l IH]; [done |].
  simpl. rewrite List.length_app, Hf, IH. done.
Qed.

Lemma concat_nonempty {A} (f : A -> list (list value)) (l : list A) :
  (forall x, (1 <= length (f x))%nat) -> (length l <= length (concat (map f l)))%nat.
Proof.
  intros Hf. induction l as [| x l IH]; [done |].
  simpl. rewrite List.length_app. specialize (Hf x). lia.
Qed.

(** A left join keeps every left row, and keeps it once when the keys of
    the right table are distinct. *)
Lemma merge_rows_length (left right df : DataFrame) (on : string) :
  merge left right on = Ok df ->
  (length (rows left) <= length (rows df))%nat /\
  (forall ks, getitem right on = Ok ks -> distinct ks = true ->
              length (rows df) = length (rows left)).
Proof.
  unfold merge, getitem.
  destruct (index_of on (columns left)) as [i |]; [| done].
  destruct (index_of on (columns right)) as [j |]; [| done].
  intros [= <-]. simpl. split.
  - apply concat_nonempty. intros lr.
    destruct (filter _ (rows right)) as [| m ms]; simpl; lia.
  - intros ks [= <-] Hd. apply concat_singletons. intros lr.
    pose proof (distinct_filter j (cell i lr) (rows right) Hd) as Hle.
    destruct (filter _ (rows right)) as [| m [| m2 ms]]; simpl in *; lia.
Qed.

Lemma append_column_keys (rs : list (list value)) (vs : list value) :
  length vs = length rs -> Forall (fun r => r <> []) rs ->
  length (zip_with (fun r v => r ++ [v]) rs vs) = length rs /\
  Forall (fun r => r <> []) (zip_with (fun r v => r ++ [v]) rs vs) /\
  map (cell 0) (zip_with (fun r v => r ++ [v]) rs vs) = map (cell 0) rs.
Proof.
  revert vs. induction rs as [| r rs IH]; intros [| v vs] Hl Hne; try done.
  apply Forall_cons in Hne as [Hr Hne].
  destruct (IH vs) as (H1 & H2 & H3); [by injection Hl | done |].
  simpl. split; [by f_equal |]. split.
  - apply Forall_cons. split; [by destruct r | done].
  - f_equal; [by destruct r | done].
Qed.

(** The amenities table has the key column of the stops table. *)
Lemma amenities_keys (s a : DataFrame) (w w' : World) (ks : list value) :
  _get_amenities_features s w = (Ok a, w') ->
  getitem s "stop_id" = Ok ks -> getitem a "stop_id" = Ok ks.
Proof.
  unfold _get_amenities_features, getitems, getitem. simpl indices_of.
  destruct (index_of "stop_id" (columns s)) as [i |]; [| done].
  unfold_monad. unfold np_random_choice. simpl.
  intros [= <- _] [= <-]. unfold setitem. simpl.
  set (rs0 := map (fun r => [cell i r]) (rows s)).
  assert (N0 : Forall (fun r => r <> []) rs0).
  { apply Forall_forall. intros r Hr. apply list_elem_of_In, in_map_iff in Hr.
    by destruct Hr as (r0 & <- & _). }
  assert (K0 : map (cell 0) rs0 = map (cell i) (rows s))
    by (subst rs0; by rewrite List.map_map).
  lazymatch goal with
  | |- Ok (map (cell 0)
             (zip_with _ (zip_with _ (zip_with _ (zip_with _ _ ?v1) ?v2) ?v3) ?v4)) = _ =>
      assert (E1 : length v1 = length rs0)
        by (by rewrite List.length_map, List.length_seq);
      assert (E2 : length v2 = length rs0)
        by (by rewrite List.length_map, List.length_seq);
      assert (E3 : length v3 = length rs0)
        by (by rewrite List.length_map, List.length_seq);
      assert (E4 : length v4 = length rs0)
        by (by rewrite List.length_map, List.length_seq);
      destruct (append_column_keys rs0 v1 E1 N0) as (L1 & N1 & K1);
      destruct (append_column_keys _ v2 (eq_trans E2 (eq_sym L1)) N1) as (L2 & N2 & K2);
      rewrite L1 in L2;
      destruct (append_column_keys _ v3 (eq_trans E3 (eq_sym L2)) N2) as (L3 & N3 & K3);
      rewrite L2 in L3;
      destruct (append_column_keys _ v4 (eq_trans E4 (eq_sym L3)) N3) as (_ & _ & K4)
  end.
  by rewrite K4, K3, K2, K1, K0.
Qed.

(** X16. [prepare_features] never drops an observation, and when the
    stop ids of the stops table and the route ids of the routes table
    are distinct (they are primary keys) the feature table has exactly
    one row per observation. *)
Theorem prepare_features_row_count (o s r : DataFrame) (w : World) (df : DataFrame) :
  fst (prepare_features o s r w) = Ok df ->
  (length (rows o) <= length (rows df))%nat /\
  (forall ks kr, getitem s "stop_id" = Ok ks -> getitem r "route_id" = Ok kr ->
     distinct ks = true -> distinct kr = true ->
     length (rows df) = length (rows o)).
Proof.
  unfold prepare_features. unfold_monad.
  destruct (merge o s "stop_id") as [df1 |] eqn:M1; [| done]. cbv beta iota zeta.
  destruct (merge df1 r "route_id") as [df2 |] eqn:M2; [| done]. cbv beta iota zeta.
  destruct (getitem df2 "observation_time") as [t |] eqn:G1; [| done]. cbv beta iota zeta.
  destruct (to_datetime t) as [t' |] eqn:T1; [| done]. cbv beta iota zeta.
  assert (Et : length t' = length (rows df2))
    by (rewrite (to_datetime_length _ _ T1); by apply getitem_length in G1).
  assert (Ef : forall f, length (dt_field f t') = length (rows df2))
    by (intros f; unfold dt_field; by rewrite List.length_map).
  set (D1 := setitem df2 "observation_time" t').
  assert (E1 : length (rows D1) = length (rows df2))
    by (by apply setitem_rows_length).
  set (D2 := setitem D1 "hour" (dt_field hour t')).
  assert (E2 : length (rows D2) = length (rows df2))
    by (unfold D2; rewrite setitem_rows_length; [done | by rewrite Ef]).
  set (D3 := setitem D2 "day_of_week" (dt_field weekday t')).
  assert (E3 : length (rows D3) = length (rows df2))
    by (unfold D3; rewrite setitem_rows_length; [done | by rewrite Ef]).
  set (D4 := setitem D3 "month" (dt_field month t')).
  assert (E4 : length (rows D4) = length (rows df2))
    by (unfold D4; rewrite setitem_rows_length; [done | by rewrite Ef]).
  destruct (getitem D4 "day_of_week") as [dow |] eqn:G2; [| done].
  apply getitem_length in G2.
  set (D5 := setitem D4 "is_weekend" (isin_5_6 dow)).
  assert (E5 : length (rows D5) = length (rows df2)).
  { unfold D5. rewrite setitem_rows_length; [done |].
    unfold isin_5_6. by rewrite List.length_map. }
  set (D6 := setitem_scalar D5 "is_holiday" (VInt 0)).
  assert (E6 : length (rows D6) = length (rows df2)).
  { unfold D6, setitem_scalar. rewrite setitem_rows_length; [done |].
    by rewrite repeat_length. }
  destruct (_get_amenities_features s w) as [[a |] w1] eqn:A1; [| done].
  destruct (merge D6 a "stop_id") as [df3 |] eqn:M3; [| done].
  destruct (fill_columns df3 amenity_cols (VInt 0)) as [df4 |] eqn:F1; [| done].
  destruct (fill_column df4 "zone_id" (VStr "unknown")) as [df5 |] eqn:F2; [| done].
  destruct (fill_column df5 "route_type" (VInt 0)) as [df6 |] eqn:F3; [| done].
  cbn [fst]. intros [= <-].
  apply fill_column_rows_length in F3, F2. apply fill_columns_rows_length in F1.
  destruct (merge_rows_length _ _ _ _ M1) as [L1 Q1].
  destruct (merge_rows_length _ _ _ _ M2) as [L2 Q2].
  destruct (merge_rows_length _ _ _ _ M3) as [L3 Q3].
  split; [lia |].
  intros ks kr Hks Hkr Dks Dkr.
  rewrite F3, F2, F1, (Q3 ks (amenities_keys _ _ _ _ _ A1 Hks) Dks), E6.
  rewrite (Q2 kr Hkr Dkr). by apply (Q1 ks).
Qed.

(** ** The success path of [predict] *)



End Properties.

(** * Concrete runs *)

#[local] Existing Instance Sample.libs.

(** C2 at an empty observation table: the endpoint answers 500. *)
Lemma train_model_without_observations_run :
  status_code (fst (train_model Sample.fresh_world)) = 500.
Proof.
  rewrite (train_model_without_observations Sample.fresh_world); reflexivity.
Defined.

(** C5 on a process that never trained. *)
Lemma predict_untrained_precondition_run :
  predict_crowd_compute Sample.request Sample.fresh_world =
    (Raise (HTTPException 400 (Formatted "" not_ready)), Sample.fresh_world).
Proof.
  apply (predict_untrained_precondition Sample.fresh_world Sample.request).
  reflexivity.
Defined.




(** C4 (the code departs from it). Two feature preparations over the
    same three tables, one after the other: the first draws a shelter
    flag of 1 for the only stop, the second draws 0, and the two feature
    tables differ; the inference path has 0. *)
Theorem amenity_flags_are_random_draws :
  let w := Sample.world Sample.redis_empty CrowdPredictor_init in
  let first := prepare_features Sample.balanced Sample.stops_df Sample.routes_df w in
  let second :=
    prepare_features Sample.balanced Sample.stops_df Sample.routes_df (snd first) in
  (df ← fst first; getitem df "has_shelter") = Ok [VInt 1; VInt 1; VInt 1; VInt 1] /\
  (df ← fst second; getitem df "has_shelter") = Ok [VInt 0; VInt 0; VInt 0; VInt 0] /\
  fst first <> fst second /\
  predict_features (Sample.at_8 15) Sample.stop1 (Some Sample.route1) !! 6%nat =
    Some ("has_shelter", VInt 0).
Proof.
  intros w first second.
  assert (H1 : (df ← fst first; getitem df "has_shelter")
               = Ok [VInt 1; VInt 1; VInt 1; VInt 1]) by (vm_compute; reflexivity).
  assert (H2 : (df ← fst second; getitem df "has_shelter")
               = Ok [VInt 0; VInt 0; VInt 0; VInt 0]) by (vm_compute; reflexivity).
  split; [exact H1 |]. split; [exact H2 |]. split; [| reflexivity].
  intros Heq. rewrite Heq, H2 in H1. discriminate H1.
Qed.


(** A trip identifier with a bracket: the pattern built from it does not
    match the cache keys of that trip. *)
Example bracket_in_identifier_escapes :
  Redis.matches (invalidation_pattern (Some "T[1]") (Some "S1"))
                (cache_key "T[1]" "S1" "08:00:00" "2024-01-15") = false.
Proof. vm_compute. reflexivity. Qed.


(** C8 during an outage. *)
Lemma cache_failures_are_swallowed_run :
  let w := Sample.world (Sample.redis_cached [true; true]) Sample.trained_Z1 in
  fst (get_prediction "T1" "S1" "08:00:00" "2024-01-15" w) = Ok None.
Proof.
  intros w.
  apply (cache_failures_are_swallowed w "T1" "S1" "08:00:00" "2024-01-15"
           Sample.cached Sample.request).
  left. reflexivity.
Defined.

(** C9 on a successful training run. *)
Lemma training_keeps_cached_predictions_run :
  let w := Sample.world (Sample.redis_cached []) CrowdPredictor_init in
  let w' := snd (train Sample.balanced Sample.stops_df Sample.routes_df w) in
  is_trained (crowd_predictor w') = true /\
  redis w' = redis w /\
  fst (predict_crowd Sample.request (elapse 50 w')) = Ok Sample.cached.
Proof.
  intros w w'. split; [vm_compute; reflexivity |].
  apply (training_keeps_cached_predictions w Sample.request Sample.cached 100 50);
    [vm_compute; reflexivity | reflexivity | vm_compute; reflexivity].
Defined.

(** C10 on a bundle trained on zone ["Z9"] and a stop of zone ["Z1"]. *)
Lemma predict_unseen_zone_is_400_run :
  status_code (fst (predict_crowd Sample.request
                      (Sample.world Sample.redis_empty Sample.trained))) = 400.
Proof.
  apply (predict_unseen_zone_is_400
           (Sample.world Sample.redis_empty Sample.trained) Sample.request
           Sample.stop1 [VStr "Z9"] [VInt 0]);
    [reflexivity | reflexivity | reflexivity | compute_done
    | vm_compute; reflexivity | by eexists].
Defined.

(** ** Runs of the further properties *)

Lemma cached_prediction_lifetime_run :
  let w := Sample.world Sample.redis_empty Sample.trained_Z1 in
  let w1 := snd (set_prediction "T1" "S1" "08:00:00" "2024-01-15" Sample.cached w) in
  fst (get_prediction "T1" "S1" "08:00:00" "2024-01-15" (elapse 3599 w1))
    = Ok (Some Sample.cached) /\
  fst (get_prediction "T1" "S1" "08:00:00" "2024-01-15" (elapse 3600 w1)) = Ok None.
Proof.
  intros w w1. split.
  - refine (proj1 (proj2 (cached_prediction_lifetime w "T1" "S1" "08:00:00" "2024-01-15"
                            Sample.cached 3599 _ _))); [reflexivity | lia].
  - refine (proj1 (proj2 (cached_prediction_lifetime w "T1" "S1" "08:00:00" "2024-01-15"
                            Sample.cached 3600 _ _))); [reflexivity | lia].
Defined.

Lemma predict_crowd_computes_and_stores_run :
  let w := Sample.world Sample.redis_empty Sample.trained_Z1 in
  fst (predict_crowd Sample.request w) =
    Ok (PredictionResponse.mk "T1" "S1" "08:00:00" "2024-01-15" "light" 1 (Some 20)
          init_feature_columns).
Proof.
  intros w.
  refine (proj1 (predict_crowd_computes_and_stores w Sample.request "light" 1%Q
                   init_feature_columns (Some 20) _ _ _ _ _ _)).
  - reflexivity.
  - vm_compute. reflexivity.
  - exists Sample.trip1. vm_compute. reflexivity.
  - exists Sample.stop1. vm_compute. reflexivity.
  - vm_compute. reflexivity.
  - vm_compute. reflexivity.
Defined.

Lemma predict_crowd_repeats_run :
  let w := Sample.world (Sample.redis_cached []) Sample.trained_Z1 in
  exists expiry,
    Redis.store (redis (snd (predict_crowd Sample.request w))) !! Sample.key
      = Some (Redis.Encoded Sample.cached, expiry) /\
    Redis.now (redis w) < expiry /\
    forall w2 : World,
      Redis.store (redis w2) = Redis.store (redis (snd (predict_crowd Sample.request w))) ->
      Redis.faults (redis w2) = [] ->
      Redis.now (redis w2) < expiry ->
      predict_crowd Sample.request w2 = (Ok Sample.cached, w2).
Proof.
  intros w.
  apply (predict_crowd_repeats w Sample.request Sample.cached).
  - reflexivity.
  - vm_compute. reflexivity.
Defined.

Lemma invalidation_reaches_selected_keys_run :
  let w := Sample.world (Sample.redis_cached []) Sample.trained_Z1 in
  let w1 := snd (invalidate_predictions None (Some "S1") w) in
  Redis.live (redis w1) Sample.key = None.
Proof.
  intros w w1.
  refine (proj1 (proj2 (invalidation_reaches_selected_keys w None (Some "S1")
                          "T1" "S1" "08:00:00" "2024-01-15" 0 _ _ _ _))).
  - reflexivity.
  - left. reflexivity.
  - right. split; reflexivity.
  - lia.
Defined.

Lemma cache_key_injective_run :
  "T1" = "T1" /\ "S1" = "S1" /\ "08:00:00" = "08:00:00" /\ "2024-01-15" = "2024-01-15".
Proof.
  apply (cache_key_injective "T1" "S1" "08:00:00" "2024-01-15"
           "T1" "S1" "08:00:00" "2024-01-15"); reflexivity.
Defined.

Lemma colon_identifiers_share_entries_run :
  let w := Sample.world Sample.redis_empty Sample.trained_Z1 in
  fst (get_prediction "T1:S" "1" "08:00:00" "2024-01-15"
         (snd (set_prediction "T1" "S:1" "08:00:00" "2024-01-15" Sample.cached w)))
    = Ok (Some Sample.cached).
Proof.
  intros w.
  refine (proj2 (colon_identifiers_share_entries w "T1" "S" "1" "08:00:00" "2024-01-15"
                   Sample.cached _)).
  reflexivity.
Defined.


Lemma create_observation_rejected_run :
  let w := Sample.world (Sample.redis_cached []) Sample.trained in
  snd (create_observation Sample.stray_observation w) = w.
Proof.
  intros w.
  refine (proj1 (create_observation_rejected w Sample.stray_observation
                   (HTTPException 404 (Literal "Trip not found")) _)).
  vm_compute. reflexivity.
Defined.





Lemma prepare_features_row_count_run :
  let w := Sample.world Sample.redis_empty Sample.trained in
  exists df,
    fst (prepare_features Sample.balanced Sample.stops_df Sample.routes_df w) = Ok df /\
    length (rows df) = 4%nat.
Proof.
  intros w.
  destruct (fst (prepare_features Sample.balanced Sample.stops_df Sample.routes_df w))
    as [df | ex] eqn:Hrun; [| vm_compute in Hrun; discriminate Hrun].
  exists df. split; [reflexivity |].
  refine (proj2 (prepare_features_row_count Sample.balanced Sample.stops_df
                   Sample.routes_df w df Hrun) [VStr "S1"] [VStr "R1"] _ _ _ _);
    reflexivity.
Defined.

